(** * lib/auth-server.ts: server-side user verification, tenant context and
      permission checks

    A shallow embedding of the exported functions of [lib/auth-server.ts]
    ([getServerUser], [requireServerAuth], [getServerUserWithOrganization],
    [hasPermission], [requirePermission], [validateOrganizationAccess]) over
    the records of [types/auth.d.ts].

    The functions are [async] and talk to three collaborators: the request's
    cookie jar, the token codec [verifyToken] and the Prisma client.  Each of
    them may raise.  A computation is therefore a function from the state of
    the world to a JavaScript completion (a value or a raised [Error])
    together with the state of the world afterwards. *)

From Stdlib Require Import String Ascii List Bool.
From Stdlib Require Import Arith Lia Sorted Permutation.
Import ListNotations.
Local Open Scope string_scope.
Local Open Scope list_scope.

(** ** JavaScript values *)

Module JS.

(** [new Error(message)] *)
Inductive Error : Type := mkError (message : string).

(** How a call ends: with a value, or with a raised exception. *)
Inductive completion (A : Type) : Type :=
| Normal (value : A)
| Throw (error : Error).

Arguments Normal {A} value.
Arguments Throw {A} error.

(** A string is falsy exactly when it is empty. *)
Definition truthy (s : string) : bool := negb (s =? "").

(** [!x] for [x : string | undefined | null]. *)
Definition falsy (x : option string) : bool :=
  match x with
  | Some s => negb (truthy s)
  | None => true
  end.

(** [a || b] for optional strings: [a] when it is truthy, otherwise [b]. *)
Definition or (a b : option string) : option string :=
  match a with
  | Some s => if truthy s then Some s else b
  | None => b
  end.

(** [s.split(sep)] for a one-character separator.  The result is never
    empty: the empty string splits into one empty piece. *)
Fixpoint split (sep : ascii) (s : string) : list string :=
  match s with
  | EmptyString => [EmptyString]
  | String c rest =>
      if Ascii.eqb c sep then EmptyString :: split sep rest
      else match split sep rest with
           | piece :: pieces => String c piece :: pieces
           | [] => [String c EmptyString]
           end
  end.

End JS.

(** ** Records of types/auth.d.ts *)

Module UserStatus.
Inductive t : Type := PENDING | ACTIVE | SUSPENDED | INACTIVE.

Definition eqb (a b : t) : bool :=
  match a, b with
  | PENDING, PENDING | ACTIVE, ACTIVE
  | SUSPENDED, SUSPENDED | INACTIVE, INACTIVE => true
  | _, _ => false
  end.
End UserStatus.

Module OrganizationStatus.
Inductive t : Type := ACTIVE | SUSPENDED | TRIAL.
End OrganizationStatus.

(** The columns of a user row that [getServerUser] selects.  [email] and
    [username] are nullable in the row that comes back. *)
Module User.
Record t : Type := mk {
  id : string;
  email : option string;
  username : option string;
  firstName : string;
  lastName : string;
  status : UserStatus.t;
  isActive : bool
}.
End User.

(** The columns of an organization that the membership query selects. *)
Module Organization.
Record t : Type := mk {
  id : string;
  name : string;
  slug : string;
  status : OrganizationStatus.t;
  timezone : string;
  currency : string
}.
End Organization.

Module OrganizationUser.
Record t : Type := mk {
  id : string;
  organizationId : string;
  userId : string;
  isOwner : bool;
  isActive : bool;
  organization : Organization.t
}.
End OrganizationUser.

Module Permission.
Record t : Type := mk {
  id : string;
  name : string;
  isWildcard : bool
}.
End Permission.

Module OrganizationRolePermission.
Record t : Type := mk {
  id : string;
  roleId : string;
  permissionId : string;
  allowed : bool;
  permission : Permission.t
}.
End OrganizationRolePermission.

Module OrganizationRole.
Record t : Type := mk {
  id : string;
  organizationId : string;
  name : string;
  isActive : bool;
  permissions : list OrganizationRolePermission.t
}.
End OrganizationRole.

(** The binding of a role to a (user, organization) pair, with the role and
    its grants as the [include] of the query loads them. *)
Module OrganizationUserRole.
Record t : Type := mk {
  organizationId : string;
  userId : string;
  roleId : string;
  isActive : bool;
  role : OrganizationRole.t
}.
End OrganizationUserRole.

Module JWTPayload.
Record t : Type := mk {
  userId : string;
  username : string;
  email : option string;
  firstName : string;
  lastName : string;
  organizationId : option string;
  roleId : option string;
  permissions : option (list string);
  iat : option nat;
  exp : option nat
}.
End JWTPayload.

(** [JWTUser] is declared in [lib/auth.ts].  These are the fields
    [lib/auth-server.ts] writes ([getServerUser], the object it returns) and
    reads ([user.userId], [user.organizationId]). *)
Module JWTUser.
Record t : Type := mk {
  userId : string;
  email : option string;
  username : option string;
  firstName : string;
  lastName : string;
  organizationId : option string
}.
End JWTUser.

(** What [getServerUserWithOrganization] returns when it does not return
    [null]. *)
Module Context.
Record t : Type := mk {
  user : JWTUser.t;
  organization : option Organization.t;
  role : option OrganizationRole.t
}.
End Context.

(** ** The world: store, store outages, console *)

Record Store : Type := mkStore {
  users : list User.t;
  organizationUsers : list OrganizationUser.t;
  organizationUserRoles : list OrganizationUserRole.t
}.

(** The three store reads of the file, with their [where] arguments. *)
Inductive Query : Type :=
| UserFindUnique (id : string)
| OrganizationUserFindFirst (userId organizationId : string)
| OrganizationUserRoleFindUnique (organizationId userId : string).

(** [outage q = Some e]: the store adapter raises [e] on the query [q]. *)
Record World : Type := mkWorld {
  db : Store;
  outage : Query -> option JS.Error;
  console : list (string * JS.Error)
}.

(** The request as the file sees it: [cookies()] and [verifyToken]. *)
Record Request : Type := mkRequest {
  cookies : JS.completion (list (string * string));
  verifyToken : string -> JS.completion (option JWTPayload.t)
}.

(** ** Computations *)

Definition M (A : Type) : Type := World -> JS.completion A * World.

Definition ret {A : Type} (a : A) : M A :=
  fun w => (JS.Normal a, w).

Definition throw {A : Type} (e : JS.Error) : M A :=
  fun w => (JS.Throw e, w).

Definition bind {A B : Type} (c : M A) (k : A -> M B) : M B :=
  fun w =>
    match c w with
    | (JS.Normal a, w') => k a w'
    | (JS.Throw e, w') => (JS.Throw e, w')
    end.

Notation "x <- c ;; k" := (bind c (fun x => k))
  (at level 61, c at next level, right associativity).

(** [try { body } catch (error) { handler }] *)
Definition tryCatch {A : Type} (body : M A) (handler : JS.Error -> M A) : M A :=
  fun w =>
    match body w with
    | (JS.Normal a, w') => (JS.Normal a, w')
    | (JS.Throw e, w') => handler e w'
    end.

(** A call into a collaborator that does not touch the world. *)
Definition lift {A : Type} (c : JS.completion A) : M A :=
  fun w => (c, w).

(** [console.error(label, error)] *)
Definition console_error (label : string) (e : JS.Error) : M unit :=
  fun w =>
    (JS.Normal tt,
     {| db := db w; outage := outage w; console := console w ++ [(label, e)] |}).

(** A store read: it raises when the adapter is out for this query, and
    otherwise answers from the tables, which it leaves as they are. *)
Definition read {A : Type} (q : Query) (answer : Store -> A) : M A :=
  fun w =>
    match outage w q with
    | Some e => (JS.Throw e, w)
    | None => (JS.Normal (answer (db w)), w)
    end.

(** ** The Prisma queries of the file *)

Module prisma.

(** [prisma.user.findUnique({ where: { id }, select: ... })] *)
Definition user_findUnique (id : string) : M (option User.t) :=
  read (UserFindUnique id)
       (fun s => find (fun u => User.id u =? id) (users s)).

(** [prisma.organizationUser.findFirst({ where: { userId, organizationId,
    isActive: true }, include: { organization } })] *)
Definition organizationUser_where (userId organizationId : string)
    (r : OrganizationUser.t) : bool :=
  (OrganizationUser.userId r =? userId)
  && (OrganizationUser.organizationId r =? organizationId)
  && Bool.eqb (OrganizationUser.isActive r) true.

Definition organizationUser_findFirst (userId organizationId : string)
    : M (option OrganizationUser.t) :=
  read (OrganizationUserFindFirst userId organizationId)
       (fun s => find (organizationUser_where userId organizationId)
                      (organizationUsers s)).

(** [prisma.organizationUserRole.findUnique({ where: { organizationId_userId:
    { organizationId, userId }, isActive: true }, include: { role } })] *)
Definition organizationUserRole_where (organizationId userId : string)
    (r : OrganizationUserRole.t) : bool :=
  (OrganizationUserRole.organizationId r =? organizationId)
  && (OrganizationUserRole.userId r =? userId)
  && Bool.eqb (OrganizationUserRole.isActive r) true.

Definition organizationUserRole_findUnique (organizationId userId : string)
    : M (option OrganizationUserRole.t) :=
  read (OrganizationUserRoleFindUnique organizationId userId)
       (fun s => find (organizationUserRole_where organizationId userId)
                      (organizationUserRoles s)).

End prisma.

(** [cookieStore.get(name)?.value] *)
Fixpoint cookie_value (cookieStore : list (string * string)) (name : string)
    : option string :=
  match cookieStore with
  | [] => None
  | (n, v) :: rest => if n =? name then Some v else cookie_value rest name
  end.

(** ** The functions of lib/auth-server.ts *)

Section Server.

Variable req : Request.

(** Get current user from server-side. *)
Definition getServerUser : M (option JWTUser.t) :=
  tryCatch
    (cookieStore <- lift (cookies req) ;;
     let token := cookie_value cookieStore "auth-token" in
     match token with
     | None => ret None
     | Some token =>
         if negb (JS.truthy token) then ret None
         else
           payload <- lift (verifyToken req token) ;;
           match payload with
           | None => ret None
           | Some payload =>
               if negb (JS.truthy (JWTPayload.userId payload)) then ret None
               else
                 user <- prisma.user_findUnique (JWTPayload.userId payload) ;;
                 match user with
                 | None => ret None
                 | Some user =>
                     if negb (User.isActive user)
                        || negb (UserStatus.eqb (User.status user)
                                                UserStatus.ACTIVE)
                     then ret None
                     else
                       ret (Some
                              {| JWTUser.userId := User.id user;
                                 JWTUser.email := User.email user;
                                 JWTUser.username :=
                                   JS.or (User.username user) None;
                                 JWTUser.firstName := User.firstName user;
                                 JWTUser.lastName := User.lastName user;
                                 JWTUser.organizationId := None |})
                 end
           end
     end)
    (fun error =>
       _ <- console_error "Server user verification failed:" error ;;
       ret None).

(** Require authentication on server-side (throws if not authenticated). *)
Definition requireServerAuth : M JWTUser.t :=
  user <- getServerUser ;;
  match user with
  | None => throw (JS.mkError "Authentication required")
  | Some user => ret user
  end.

(** Get user with organization context. *)
Definition getServerUserWithOrganization (organizationId : option string)
    : M (option Context.t) :=
  user <- getServerUser ;;
  match user with
  | None => ret None
  | Some user =>
      let targetOrgId := JS.or organizationId (JWTUser.organizationId user) in
      match targetOrgId with
      | None =>
          ret (Some {| Context.user := user;
                       Context.organization := None;
                       Context.role := None |})
      | Some targetOrgId =>
          if negb (JS.truthy targetOrgId) then
            ret (Some {| Context.user := user;
                         Context.organization := None;
                         Context.role := None |})
          else
            tryCatch
              (orgUser <- prisma.organizationUser_findFirst
                            (JWTUser.userId user) targetOrgId ;;
               match orgUser with
               | None => ret None
               | Some orgUser =>
                   userRole <- prisma.organizationUserRole_findUnique
                                 targetOrgId (JWTUser.userId user) ;;
                   ret (Some
                          {| Context.user := user;
                             Context.organization :=
                               Some (OrganizationUser.organization orgUser);
                             Context.role :=
                               option_map OrganizationUserRole.role userRole |})
               end)
              (fun error =>
                 _ <- console_error
                        "Failed to get user organization context:" error ;;
                 ret (Some {| Context.user := user;
                              Context.organization := None;
                              Context.role := None |}))
      end
  end.

(** [const [category] = permission.split('.')]: the first piece, and
    [undefined] (printed as such by the template literal) if there were
    none. *)
Definition category (permission : string) : string :=
  match JS.split "." permission with
  | c :: _ => c
  | [] => "undefined"
  end.

Definition wildcardPermission (permission : string) : string :=
  category permission ++ ".*".

(** [role.permissions.some(rp => rp.permission.name === name && rp.allowed)] *)
Definition some_allowed (role : OrganizationRole.t) (name : string) : bool :=
  existsb
    (fun rolePermission =>
       (Permission.name (OrganizationRolePermission.permission rolePermission)
        =? name)
       && OrganizationRolePermission.allowed rolePermission)
    (OrganizationRole.permissions role).

(** Check if user has permission in current organization. *)
Definition hasPermission (permission : string) (organizationId : option string)
    : M bool :=
  context <- getServerUserWithOrganization organizationId ;;
  match context with
  | None => ret false
  | Some context =>
      match Context.role context with
      | None => ret false
      | Some role =>
          let hasDirectPermission := some_allowed role permission in
          if hasDirectPermission then ret true
          else
            let hasWildcardPermission :=
              some_allowed role (wildcardPermission permission) in
            if hasWildcardPermission then ret true
            else
              let hasSuperAdminPermission := some_allowed role "*" in
              ret hasSuperAdminPermission
      end
  end.

(** Require specific permission (throws if not authorized). *)
Definition requirePermission (permission : string)
    (organizationId : option string) : M unit :=
  hasAccess <- hasPermission permission organizationId ;;
  if negb hasAccess
  then throw (JS.mkError ("Permission denied: " ++ permission))
  else ret tt.

End Server.

(** Validate organization access for user. *)
Definition validateOrganizationAccess (userId organizationId : string) : M bool :=
  tryCatch
    (orgUser <- prisma.organizationUser_findFirst userId organizationId ;;
     ret (match orgUser with Some _ => true | None => false end))
    (fun error =>
       _ <- console_error "Failed to validate organization access:" error ;;
       ret false).

(** ** The other functions of lib/auth-server.ts *)

(** Get user ID from server-side (quick version):
    [user?.userId || null]. *)
Definition getServerUserId (req : Request) : M (option string) :=
  user <- getServerUser req ;;
  ret (JS.or (option_map JWTUser.userId user) None).

(** Check if user is authenticated on server-side. *)
Definition isServerAuthenticated (req : Request) : M bool :=
  user <- getServerUser req ;;
  ret (match user with Some _ => true | None => false end).

(** The [Headers] of a request, through the one method the file calls:
    [headers.get(name)], a string or [null]. *)
Module Headers.
Record t : Type := mk {
  get : string -> option string
}.
End Headers.

(** [{ userId, email }] *)
Module HeaderUser.
Record t : Type := mk {
  userId : string;
  email : string
}.
End HeaderUser.

(** Get user from request headers (for API routes with middleware). *)
Definition getUserFromHeaders (headers : Headers.t) : option HeaderUser.t :=
  let userId := Headers.get headers "x-user-id" in
  let email := Headers.get headers "x-user-email" in
  if JS.falsy userId || JS.falsy email then None
  else
    match userId, email with
    | Some userId, Some email =>
        Some {| HeaderUser.userId := userId; HeaderUser.email := email |}
    | _, _ => None
    end.

(** The columns of an organization that [getServerOrganization] selects.
    Dates are timestamps. *)
Module OrganizationDetails.
Record t : Type := mk {
  id : string;
  name : string;
  slug : string;
  description : option string;
  logo : option string;
  status : OrganizationStatus.t;
  timezone : string;
  currency : string;
  allowDepartments : bool;
  allowCustomRoles : bool;
  createdAt : nat;
  updatedAt : nat
}.
End OrganizationDetails.

(** The columns of an organization that [getUserOrganizations] selects. *)
Module OrganizationSummary.
Record t : Type := mk {
  id : string;
  name : string;
  slug : string;
  description : option string;
  logo : option string;
  status : OrganizationStatus.t
}.
End OrganizationSummary.

(** A membership as [getUserOrganizations] returns it: the columns of the
    row, with the organization its [include] loads. *)
Module UserOrganization.
Record t : Type := mk {
  id : string;
  organizationId : string;
  userId : string;
  isOwner : bool;
  joinedAt : nat;
  isActive : bool;
  organization : OrganizationSummary.t
}.
End UserOrganization.

(** The two store reads of [getServerOrganization] and
    [getUserOrganizations]. *)
Inductive ListingQuery : Type :=
| OrganizationFindUnique (id : string)
| OrganizationUserFindMany (userId : string).

(** What these two reads need beyond [Store]: the organization table with
    the columns [getServerOrganization] selects, the [joinedAt] column of a
    membership row, the [description] and [logo] columns of its organization,
    and the queries on which the adapter raises. *)
Record Listing : Type := mkListing {
  organizations : list OrganizationDetails.t;
  joinedAt : OrganizationUser.t -> nat;
  description : Organization.t -> option string;
  logo : Organization.t -> option string;
  listing_outage : ListingQuery -> option JS.Error
}.

(** A read of this part of the store. *)
Definition read_listing {A : Type} (l : Listing) (q : ListingQuery)
    (answer : Store -> A) : M A :=
  fun w =>
    match listing_outage l q with
    | Some e => (JS.Throw e, w)
    | None => (JS.Normal (answer (db w)), w)
    end.

(** [orderBy: { key: 'asc' }]: rows by ascending key, rows with equal keys in
    table order. *)
Fixpoint insert_asc {A : Type} (key : A -> nat) (x : A) (l : list A) : list A :=
  match l with
  | [] => [x]
  | y :: rest =>
      if Nat.leb (key x) (key y) then x :: y :: rest
      else y :: insert_asc key x rest
  end.

Fixpoint orderBy_asc {A : Type} (key : A -> nat) (l : list A) : list A :=
  match l with
  | [] => []
  | x :: rest => insert_asc key x (orderBy_asc key rest)
  end.

Module prisma_listing.

(** [prisma.organization.findUnique({ where: { id }, select: ... })] *)
Definition organization_findUnique (l : Listing) (id : string)
    : M (option OrganizationDetails.t) :=
  read_listing l (OrganizationFindUnique id)
    (fun _ => find (fun o => OrganizationDetails.id o =? id) (organizations l)).

(** [where: { userId, isActive: true }] *)
Definition organizationUser_where (userId : string) (r : OrganizationUser.t)
    : bool :=
  (OrganizationUser.userId r =? userId)
  && Bool.eqb (OrganizationUser.isActive r) true.

(** [include: { organization: { select: { id, name, slug, description, logo,
    status } } }] *)
Definition include_organization (l : Listing) (r : OrganizationUser.t)
    : UserOrganization.t :=
  let o := OrganizationUser.organization r in
  {| UserOrganization.id := OrganizationUser.id r;
     UserOrganization.organizationId := OrganizationUser.organizationId r;
     UserOrganization.userId := OrganizationUser.userId r;
     UserOrganization.isOwner := OrganizationUser.isOwner r;
     UserOrganization.joinedAt := joinedAt l r;
     UserOrganization.isActive := OrganizationUser.isActive r;
     UserOrganization.organization :=
       {| OrganizationSummary.id := Organization.id o;
          OrganizationSummary.name := Organization.name o;
          OrganizationSummary.slug := Organization.slug o;
          OrganizationSummary.description := description l o;
          OrganizationSummary.logo := logo l o;
          OrganizationSummary.status := Organization.status o |} |}.

(** [prisma.organizationUser.findMany({ where: { userId, isActive: true },
    include: { organization }, orderBy: { joinedAt: 'asc' } })] *)
Definition organizationUser_findMany (l : Listing) (userId : string)
    : M (list UserOrganization.t) :=
  read_listing l (OrganizationUserFindMany userId)
    (fun s =>
       map (include_organization l)
           (orderBy_asc (joinedAt l)
              (filter (organizationUser_where userId) (organizationUsers s)))).

End prisma_listing.

(** Get organization from server context. *)
Definition getServerOrganization (l : Listing) (organizationId : string)
    : M (option OrganizationDetails.t) :=
  tryCatch
    (organization <- prisma_listing.organization_findUnique l organizationId ;;
     ret organization)
    (fun error =>
       _ <- console_error "Failed to get organization:" error ;;
       ret None).

(** Get user's organizations. *)
Definition getUserOrganizations (l : Listing) (userId : string)
    : M (list UserOrganization.t) :=
  tryCatch
    (organizations <- prisma_listing.organizationUser_findMany l userId ;;
     ret organizations)
    (fun error =>
       _ <- console_error "Failed to get user organizations:" error ;;
       ret []).

(** [has_char a s]: the character [a] occurs in [s]. *)
Fixpoint has_char (a : ascii) (s : string) : bool :=
  match s with
  | EmptyString => false
  | String c rest => Ascii.eqb c a || has_char a rest
  end.

(** ** A store to run the functions on

    One active user with four memberships: organization A (role Viewer,
    which grants [products.read]), organization B (role Admin, which grants
    ["*"]), organization C (membership switched off, role Manager, which
    grants ["products.*"]) and organization D (no role assigned); and one
    suspended user.  The session token of the active user embeds
    organization C. *)

Module Scenario.

Definition alice : User.t :=
  {| User.id := "u1"; User.email := Some "alice@example.com";
     User.username := Some "alice"; User.firstName := "Alice";
     User.lastName := "Archer"; User.status := UserStatus.ACTIVE;
     User.isActive := true |}.

Definition bob : User.t :=
  {| User.id := "u2"; User.email := None;
     User.username := Some "bob"; User.firstName := "Bob";
     User.lastName := "Baker"; User.status := UserStatus.SUSPENDED;
     User.isActive := true |}.

Definition org (id name : string) : Organization.t :=
  {| Organization.id := id; Organization.name := name;
     Organization.slug := name; Organization.status := OrganizationStatus.ACTIVE;
     Organization.timezone := "Asia/Bangkok"; Organization.currency := "THB" |}.

Definition membership (id organizationId : string) (isActive : bool)
    : OrganizationUser.t :=
  {| OrganizationUser.id := id;
     OrganizationUser.organizationId := organizationId;
     OrganizationUser.userId := "u1";
     OrganizationUser.isOwner := false;
     OrganizationUser.isActive := isActive;
     OrganizationUser.organization := org organizationId organizationId |}.

Definition grant (roleId name : string) (allowed : bool)
    : OrganizationRolePermission.t :=
  {| OrganizationRolePermission.id := roleId ++ ":" ++ name;
     OrganizationRolePermission.roleId := roleId;
     OrganizationRolePermission.permissionId := name;
     OrganizationRolePermission.allowed := allowed;
     OrganizationRolePermission.permission :=
       {| Permission.id := name; Permission.name := name;
          Permission.isWildcard := has_char "*" name |} |}.

Definition role (id organizationId name : string)
    (grants : list (string * bool)) : OrganizationRole.t :=
  {| OrganizationRole.id := id;
     OrganizationRole.organizationId := organizationId;
     OrganizationRole.name := name;
     OrganizationRole.isActive := true;
     OrganizationRole.permissions :=
       map (fun g => grant id (fst g) (snd g)) grants |}.

Definition viewer : OrganizationRole.t :=
  role "r-viewer" "orgA" "Viewer" [("products.read", true)].

Definition admin : OrganizationRole.t :=
  role "r-admin" "orgB" "Admin" [("*", true)].

Definition manager : OrganizationRole.t :=
  role "r-manager" "orgC" "Manager"
       [("products.*", true); ("inventory.create", false)].

Definition assignment (r : OrganizationRole.t) : OrganizationUserRole.t :=
  {| OrganizationUserRole.organizationId := OrganizationRole.organizationId r;
     OrganizationUserRole.userId := "u1";
     OrganizationUserRole.roleId := OrganizationRole.id r;
     OrganizationUserRole.isActive := true;
     OrganizationUserRole.role := r |}.

Definition store : Store :=
  {| users := [alice; bob];
     organizationUsers :=
       [membership "m1" "orgA" true; membership "m2" "orgB" true;
        membership "m3" "orgC" false; membership "m4" "orgD" true];
     organizationUserRoles :=
       [assignment viewer; assignment admin; assignment manager] |}.

Definition ECONNREFUSED : JS.Error := JS.mkError "connect ECONNREFUSED".

(** The store answers every query. *)
Definition healthy : World :=
  {| db := store; outage := fun _ => None; console := [] |}.

(** The store raises on every query. *)
Definition down : World :=
  {| db := store; outage := fun _ => Some ECONNREFUSED; console := [] |}.

(** The store raises on membership queries only. *)
Definition memberships_down : World :=
  {| db := store;
     outage := fun q => match q with
                        | OrganizationUserFindFirst _ _ => Some ECONNREFUSED
                        | _ => None
                        end;
     console := [] |}.

(** The store raises on role queries only. *)
Definition roles_down : World :=
  {| db := store;
     outage := fun q => match q with
                        | OrganizationUserRoleFindUnique _ _ => Some ECONNREFUSED
                        | _ => None
                        end;
     console := [] |}.

Definition claims (userId : string) (organizationId : option string)
    : JWTPayload.t :=
  {| JWTPayload.userId := userId; JWTPayload.username := userId;
     JWTPayload.email := None; JWTPayload.firstName := "";
     JWTPayload.lastName := "";
     JWTPayload.organizationId := organizationId;
     JWTPayload.roleId := None; JWTPayload.permissions := None;
     JWTPayload.iat := Some 0; JWTPayload.exp := Some 3600 |}.

Definition codec (token : string) : JS.completion (option JWTPayload.t) :=
  if token =? "token-alice" then JS.Normal (Some (claims "u1" (Some "orgC")))
  else if token =? "token-bob" then JS.Normal (Some (claims "u2" None))
  else if token =? "token-ghost" then JS.Normal (Some (claims "u9" None))
  else JS.Normal None.

Definition request (token : string) : Request :=
  {| cookies := JS.Normal [("theme", "dark"); ("auth-token", token)];
     verifyToken := codec |}.

(** The request of the active user. *)
Definition alice_request : Request := request "token-alice".

Definition anonymous : Request :=
  {| cookies := JS.Normal [("theme", "dark")]; verifyToken := codec |}.

(** What [getServerUser] makes of the active user. *)
Definition alice_user : JWTUser.t :=
  {| JWTUser.userId := "u1"; JWTUser.email := Some "alice@example.com";
     JWTUser.username := Some "alice"; JWTUser.firstName := "Alice";
     JWTUser.lastName := "Archer"; JWTUser.organizationId := None |}.

End Scenario.

(** ** More of the scenario: the organization table, join times, a second
    token for the active user, request headers *)

Module Fixtures.

Definition details (id : string) (createdAt : nat) : OrganizationDetails.t :=
  {| OrganizationDetails.id := id; OrganizationDetails.name := id;
     OrganizationDetails.slug := id;
     OrganizationDetails.description := None;
     OrganizationDetails.logo := None;
     OrganizationDetails.status := OrganizationStatus.ACTIVE;
     OrganizationDetails.timezone := "Asia/Bangkok";
     OrganizationDetails.currency := "THB";
     OrganizationDetails.allowDepartments := true;
     OrganizationDetails.allowCustomRoles := false;
     OrganizationDetails.createdAt := createdAt;
     OrganizationDetails.updatedAt := createdAt |}.

(** The user joined organization B first, then D, then A. *)
Definition joined (r : OrganizationUser.t) : nat :=
  if OrganizationUser.id r =? "m1" then 30
  else if OrganizationUser.id r =? "m2" then 10
  else if OrganizationUser.id r =? "m3" then 15
  else 20.

Definition listing : Listing :=
  {| organizations := [details "orgA" 1; details "orgB" 2; details "orgD" 4];
     joinedAt := joined;
     description := fun _ => None;
     logo := fun _ => None;
     listing_outage := fun _ => None |}.

Definition listing_down : Listing :=
  {| organizations := organizations listing;
     joinedAt := joined;
     description := fun _ => None;
     logo := fun _ => None;
     listing_outage := fun _ => Some Scenario.ECONNREFUSED |}.

(** Claims for the active user that embed organization B, the Admin role
    and a cached ["*"]. *)
Definition inflated_claims : JWTPayload.t :=
  {| JWTPayload.userId := "u1"; JWTPayload.username := "root";
     JWTPayload.email := None; JWTPayload.firstName := "";
     JWTPayload.lastName := "";
     JWTPayload.organizationId := Some "orgB";
     JWTPayload.roleId := Some "r-admin";
     JWTPayload.permissions := Some ["*"];
     JWTPayload.iat := Some 0; JWTPayload.exp := Some 3600 |}.

(** A request with another token and another cookie jar, whose codec
    decodes that token to the claims above. *)
Definition inflated_request : Request :=
  {| cookies := JS.Normal [("auth-token", "token-inflated"); ("lang", "th")];
     verifyToken := fun token =>
       if token =? "token-inflated" then JS.Normal (Some inflated_claims)
       else JS.Normal None |}.

Definition headers : Headers.t :=
  {| Headers.get := fun name =>
       if name =? "x-user-id" then Some "u1"
       else if name =? "x-user-email" then Some "alice@example.com"
       else None |}.

End Fixtures.

(** ** Vocabulary of the statements *)

(** The name of the permission a grant of a role refers to. *)
Definition grant_name (g : OrganizationRolePermission.t) : string :=
  Permission.name (OrganizationRolePermission.permission g).

(** [{ user, organization: null, role: null }] *)
Definition NoContext (user : JWTUser.t) : Context.t :=
  {| Context.user := user; Context.organization := None;
     Context.role := None |}.

(** The world after [console.error(label, e)]. *)
Definition logged (w : World) (label : string) (e : JS.Error) : World :=
  {| db := db w; outage := outage w; console := console w ++ [(label, e)] |}.

(** The [try] block of [getServerUserWithOrganization] with its handler:
    the membership and role lookups of a resolved user with a target
    organization. *)
Definition lookups (user : JWTUser.t) (target : string) : M (option Context.t) :=
  tryCatch
    (orgUser <- prisma.organizationUser_findFirst (JWTUser.userId user) target ;;
     match orgUser with
     | None => ret None
     | Some orgUser =>
         userRole <- prisma.organizationUserRole_findUnique
                       target (JWTUser.userId user) ;;
         ret (Some
                {| Context.user := user;
                   Context.organization :=
                     Some (OrganizationUser.organization orgUser);
                   Context.role :=
                     option_map OrganizationUserRole.role userRole |})
     end)
    (fun error =>
       _ <- console_error "Failed to get user organization context:" error ;;
       ret (Some (NoContext user))).

(** The request carries no session token. *)
Definition no_token (req : Request) : Prop :=
  exists cookieStore,
    cookies req = JS.Normal cookieStore
    /\ JS.falsy (cookie_value cookieStore "auth-token") = true.

(** A collaborator of [getServerUser] raises [e]: the cookie jar, the token
    codec on the token of the request, or the store on the user lookup. *)
Inductive dependency_failure (req : Request) (w : World) (e : JS.Error) : Prop :=
| cookies_raise :
    cookies req = JS.Throw e -> dependency_failure req w e
| codec_raises cookieStore token :
    cookies req = JS.Normal cookieStore ->
    cookie_value cookieStore "auth-token" = Some token ->
    JS.truthy token = true ->
    verifyToken req token = JS.Throw e ->
    dependency_failure req w e
| store_raises cookieStore token payload :
    cookies req = JS.Normal cookieStore ->
    cookie_value cookieStore "auth-token" = Some token ->
    JS.truthy token = true ->
    verifyToken req token = JS.Normal (Some payload) ->
    JS.truthy (JWTPayload.userId payload) = true ->
    outage w (UserFindUnique (JWTPayload.userId payload)) = Some e ->
    dependency_failure req w e.

(** [new Error(`Permission denied: ${permission}`)] *)
Definition PermissionDenied (permission : string) : JS.Error :=
  JS.mkError ("Permission denied: " ++ permission).

(** The identity [getServerUser] builds from a user row. *)
Definition identity_of (row : User.t) : JWTUser.t :=
  {| JWTUser.userId := User.id row;
     JWTUser.email := User.email row;
     JWTUser.username := JS.or (User.username row) None;
     JWTUser.firstName := User.firstName row;
     JWTUser.lastName := User.lastName row;
     JWTUser.organizationId := None |}.

(** A grant matches a permission name: by the name itself, by the wildcard of
    its category, or by ["*"]. *)
Definition grant_matches (g : OrganizationRolePermission.t)
    (permission : string) : Prop :=
  grant_name g = permission
  \/ grant_name g = wildcardPermission permission
  \/ grant_name g = "*".

(** A role without its grants that have [allowed = false]. *)
Definition without_denied (role : OrganizationRole.t) : OrganizationRole.t :=
  {| OrganizationRole.id := OrganizationRole.id role;
     OrganizationRole.organizationId := OrganizationRole.organizationId role;
     OrganizationRole.name := OrganizationRole.name role;
     OrganizationRole.isActive := OrganizationRole.isActive role;
     OrganizationRole.permissions :=
       filter OrganizationRolePermission.allowed
              (OrganizationRole.permissions role) |}.

Definition assignment_without_denied (a : OrganizationUserRole.t)
    : OrganizationUserRole.t :=
  {| OrganizationUserRole.organizationId := OrganizationUserRole.organizationId a;
     OrganizationUserRole.userId := OrganizationUserRole.userId a;
     OrganizationUserRole.roleId := OrganizationUserRole.roleId a;
     OrganizationUserRole.isActive := OrganizationUserRole.isActive a;
     OrganizationUserRole.role := without_denied (OrganizationUserRole.role a) |}.

(** The world with every [allowed = false] grant deleted from the store. *)
Definition strip_denied (w : World) : World :=
  {| db := {| users := users (db w);
              organizationUsers := organizationUsers (db w);
              organizationUserRoles :=
                map assignment_without_denied (organizationUserRoles (db w)) |};
     outage := outage w;
     console := console w |}.

(** A membership row of a user in an organization, switched on. *)
Definition active_membership (w : World) (userId organizationId : string)
    (r : OrganizationUser.t) : Prop :=
  In r (organizationUsers (db w))
  /\ OrganizationUser.userId r = userId
  /\ OrganizationUser.organizationId r = organizationId
  /\ OrganizationUser.isActive r = true.

(** A role assignment of a user in an organization, switched on. *)
Definition active_assignment (w : World) (userId organizationId : string)
    (a : OrganizationUserRole.t) : Prop :=
  In a (organizationUserRoles (db w))
  /\ OrganizationUserRole.userId a = userId
  /\ OrganizationUserRole.organizationId a = organizationId
  /\ OrganizationUserRole.isActive a = true.

(** * Properties *)

(** ** Stepping through a computation *)

Ltac unfold_m :=
  unfold prisma.user_findUnique, prisma.organizationUser_findFirst,
    prisma.organizationUserRole_findUnique in *;
  unfold tryCatch, bind, ret, throw, lift, console_error, read in *.

(** Case analysis on the next test the computation in the goal performs. *)
Ltac step :=
  match goal with
  | |- context [match ?x with _ => _ end] =>
      lazymatch x with
      | context [match _ with _ => _ end] => fail
      | _ => let E := fresh "E" in destruct x eqn:E; simpl in *
      end
  end.

(** ** The session resolver *)

Section SessionResolver.

Variable req : Request.

(** [getServerUser] always completes normally, and leaves the tables and the
    adapter as they were. *)
Lemma getServerUser_normal (w : World) :
  exists r w',
    getServerUser req w = (JS.Normal r, w')
    /\ db w' = db w /\ outage w' = outage w.
Proof.
  unfold getServerUser. unfold_m.
  repeat step; eauto.
Qed.

(** A resolved user comes out of a run that logged nothing, and carries no
    organization id. *)
Lemma getServerUser_resolved (w w' : World) (u : JWTUser.t) :
  getServerUser req w = (JS.Normal (Some u), w') ->
  w' = w /\ JWTUser.organizationId u = None.
Proof.
  unfold getServerUser. unfold_m.
  repeat step; intros H; inversion H; subst; auto.
Qed.

End SessionResolver.

(** ** Splitting a permission name *)

Lemma split_nonempty (sep : ascii) (s : string) : JS.split sep s <> [].
Proof.
  induction s as [|c rest IH]; simpl.
  - discriminate.
  - destruct (Ascii.eqb c sep); [discriminate|].
    destruct (JS.split sep rest); discriminate.
Qed.

(** The first piece of a string without the separator is the string. *)
Lemma split_no_sep (sep : ascii) (s : string) :
  has_char sep s = false -> JS.split sep s = [s].
Proof.
  induction s as [|c rest IH]; simpl; intros H.
  - reflexivity.
  - apply orb_false_iff in H. destruct H as [Hc Hrest].
    rewrite Hc, (IH Hrest). reflexivity.
Qed.

(** The first piece of [c ++ sep ++ rest] is [c] when [c] has no separator. *)
Lemma split_first (sep : ascii) (c rest : string) :
  has_char sep c = false ->
  exists pieces, JS.split sep (c ++ String sep rest) = c :: pieces.
Proof.
  induction c as [|a c IH]; simpl; intros H.
  - rewrite Ascii.eqb_refl. eauto.
  - apply orb_false_iff in H. destruct H as [Ha Hc].
    rewrite Ha. destruct (IH Hc) as [pieces ->]. eauto.
Qed.

Lemma category_before_first_dot (c rest : string) :
  has_char "." c = false -> category (c ++ "." ++ rest)%string = c.
Proof.
  intros H. unfold category. simpl.
  destruct (split_first "."%char c rest H) as [pieces ->]. reflexivity.
Qed.

Lemma category_without_dot (p : string) :
  has_char "." p = false -> category p = p.
Proof.
  intros H. unfold category. rewrite (split_no_sep "."%char p H). reflexivity.
Qed.

(** ** The permission evaluator *)

Lemma some_allowed_iff (role : OrganizationRole.t) (name : string) :
  some_allowed role name = true <->
  exists g, In g (OrganizationRole.permissions role)
            /\ OrganizationRolePermission.allowed g = true
            /\ grant_name g = name.
Proof.
  unfold some_allowed, grant_name. rewrite existsb_exists.
  split; intros [g [Hin H]]; exists g; split; auto.
  - apply andb_true_iff in H. destruct H as [Hn Ha].
    apply String.eqb_eq in Hn. auto.
  - destruct H as [Ha Hn]. apply andb_true_iff. split; auto.
    apply String.eqb_eq. exact Hn.
Qed.

(** The three checks of [hasPermission] on a loaded role. *)
Lemma role_checks_iff (role : OrganizationRole.t) (permission : string) :
  (if some_allowed role permission then true
   else if some_allowed role (wildcardPermission permission) then true
        else some_allowed role "*") = true <->
  exists g, In g (OrganizationRole.permissions role)
            /\ OrganizationRolePermission.allowed g = true
            /\ (grant_name g = permission
                \/ grant_name g = (category permission ++ ".*")%string
                \/ grant_name g = "*").
Proof.
  fold (wildcardPermission permission).
  destruct (some_allowed role permission) eqn:E1;
    [|destruct (some_allowed role (wildcardPermission permission)) eqn:E2].
  - apply some_allowed_iff in E1. destruct E1 as [g [? [? ?]]].
    split; [intros _; exists g; auto | reflexivity].
  - apply some_allowed_iff in E2. destruct E2 as [g [? [? ?]]].
    split; [intros _; exists g; auto | reflexivity].
  - rewrite some_allowed_iff. split.
    + intros [g [? [? ?]]]. exists g; auto.
    + intros [g [Hin [Ha [Hn | [Hn | Hn]]]]].
      * assert (some_allowed role permission = true)
          by (apply some_allowed_iff; eauto). congruence.
      * assert (some_allowed role (wildcardPermission permission) = true)
          by (apply some_allowed_iff; eauto). congruence.
      * eauto.
Qed.

(** C1. On a resolved tenant context, [hasPermission(p, orgId)] returns
    [true] exactly when the role is not null and one of its grants has
    [allowed = true] and a name equal to [p], to ["<category>.*"] or to
    ["*"], where [<category>] is the part of [p] before its first ['.'] (all
    of [p] when it has none); with a null role it returns [false]. *)
Theorem hasPermission_iff (req : Request) (permission : string)
    (organizationId : option string) (w w' : World) (context : Context.t) :
  getServerUserWithOrganization req organizationId w
    = (JS.Normal (Some context), w') ->
  exists b,
    hasPermission req permission organizationId w = (JS.Normal b, w')
    /\ (b = true <->
        exists role,
          Context.role context = Some role
          /\ exists g, In g (OrganizationRole.permissions role)
               /\ OrganizationRolePermission.allowed g = true
               /\ (grant_name g = permission
                   \/ grant_name g = (category permission ++ ".*")%string
                   \/ grant_name g = "*"))
    /\ (Context.role context = None -> b = false)
    /\ (forall c rest, has_char "." c = false ->
          permission = (c ++ "." ++ rest)%string -> category permission = c)
    /\ (has_char "." permission = false -> category permission = permission).
Proof.
  intros Hctx.
  assert (Hcat : (forall c rest, has_char "." c = false ->
            permission = (c ++ "." ++ rest)%string -> category permission = c)
          /\ (has_char "." permission = false ->
              category permission = permission)).
  { split.
    - intros c rest Hc ->. apply category_before_first_dot; exact Hc.
    - apply category_without_dot. }
  unfold hasPermission, bind. rewrite Hctx.
  destruct (Context.role context) as [role|] eqn:Hrole.
  - exists (if some_allowed role permission then true
            else if some_allowed role (wildcardPermission permission) then true
                 else some_allowed role "*").
    split; [|split; [|split; [discriminate | exact Hcat]]].
    + unfold ret.
      destruct (some_allowed role permission); [reflexivity|].
      destruct (some_allowed role (wildcardPermission permission)); reflexivity.
    + rewrite role_checks_iff. split.
      * intros H. exists role. auto.
      * intros [role' [Heq H]]. inversion Heq; subst. exact H.
  - exists false. split; [reflexivity|]. split; [|split; [reflexivity | exact Hcat]].
    split; [discriminate|]. intros [role [Heq _]]. discriminate.
Qed.

(** ** The store queries *)

Lemma find_all_false {A : Type} (f : A -> bool) (l : list A) :
  (forall x, In x l -> f x = false) -> find f l = None.
Proof.
  induction l as [|a l IH]; simpl; intros H; [reflexivity|].
  rewrite (H a (or_introl eq_refl)). apply IH. intros x Hx. apply H. now right.
Qed.

Lemma find_one_true {A : Type} (f : A -> bool) (l : list A) (x : A) :
  In x l -> f x = true -> exists y, find f l = Some y.
Proof.
  intros Hin Hx. destruct (find f l) as [y|] eqn:E; [eauto|].
  rewrite (find_none _ _ E _ Hin) in Hx. discriminate.
Qed.

Lemma organizationUser_where_iff (userId organizationId : string)
    (r : OrganizationUser.t) :
  prisma.organizationUser_where userId organizationId r = true <->
  OrganizationUser.userId r = userId
  /\ OrganizationUser.organizationId r = organizationId
  /\ OrganizationUser.isActive r = true.
Proof.
  unfold prisma.organizationUser_where.
  rewrite !andb_true_iff, !String.eqb_eq, Bool.eqb_true_iff. tauto.
Qed.

Lemma organizationUserRole_where_iff (organizationId userId : string)
    (r : OrganizationUserRole.t) :
  prisma.organizationUserRole_where organizationId userId r = true <->
  OrganizationUserRole.organizationId r = organizationId
  /\ OrganizationUserRole.userId r = userId
  /\ OrganizationUserRole.isActive r = true.
Proof.
  unfold prisma.organizationUserRole_where.
  rewrite !andb_true_iff, !String.eqb_eq, Bool.eqb_true_iff. tauto.
Qed.

(** ** The tenant context resolver *)

Section ContextResolver.

Variable req : Request.

Lemma resolved_run (w : World) (u : JWTUser.t) :
  fst (getServerUser req w) = JS.Normal (Some u) ->
  getServerUser req w = (JS.Normal (Some u), w)
  /\ JWTUser.organizationId u = None.
Proof.
  destruct (getServerUser req w) as [c w'] eqn:E. simpl. intros ->.
  destruct (getServerUser_resolved _ _ _ _ E) as [-> Horg]. auto.
Qed.

Lemma unresolved_run (w : World) :
  fst (getServerUser req w) = JS.Normal None ->
  fst (getServerUserWithOrganization req None w) = JS.Normal None
  /\ forall organizationId,
       fst (getServerUserWithOrganization req organizationId w)
       = JS.Normal None.
Proof.
  intros H. assert (forall organizationId,
    fst (getServerUserWithOrganization req organizationId w) = JS.Normal None).
  { intros o. unfold getServerUserWithOrganization, bind.
    destruct (getServerUser req w) as [c w']. simpl in H. subst c.
    reflexivity. }
  auto.
Qed.

Lemma targeted_run (w : World) (organizationId : option string)
    (user : JWTUser.t) (target : string) :
  fst (getServerUser req w) = JS.Normal (Some user) ->
  JS.or organizationId (JWTUser.organizationId user) = Some target ->
  JS.truthy target = true ->
  getServerUserWithOrganization req organizationId w = lookups user target w.
Proof.
  intros Hu Ht Htruthy. apply resolved_run in Hu. destruct Hu as [Hu _].
  unfold getServerUserWithOrganization, bind. rewrite Hu, Ht, Htruthy.
  reflexivity.
Qed.

Lemma getServerUserWithOrganization_normal (w : World)
    (organizationId : option string) :
  exists r w',
    getServerUserWithOrganization req organizationId w = (JS.Normal r, w')
    /\ db w' = db w /\ outage w' = outage w.
Proof.
  unfold getServerUserWithOrganization, bind.
  destruct (getServerUser_normal req w) as [r [w1 [E [Hdb Hout]]]].
  rewrite E. destruct r as [user|]; [|unfold ret; eauto].
  destruct (JS.or organizationId (JWTUser.organizationId user)) as [target|];
    [|unfold ret; eauto].
  destruct (negb (JS.truthy target)); [unfold ret; eauto|].
  unfold_m. rewrite <- Hdb, <- Hout.
  repeat step; eauto.
Qed.

Lemma hasPermission_normal (w : World) (permission : string)
    (organizationId : option string) :
  exists b w', hasPermission req permission organizationId w = (JS.Normal b, w').
Proof.
  unfold hasPermission, bind.
  destruct (getServerUserWithOrganization_normal w organizationId)
    as [r [w' [E _]]].
  rewrite E. unfold ret. repeat step; eauto.
Qed.

End ContextResolver.

(** ** Claims about the tenant context resolver *)

(** C3. For a resolved user and a target organization for which the store
    holds no membership row with [isActive = true] and answers the membership
    query, [getServerUserWithOrganization] returns [null]; and whatever it
    returns, an organization it returns is the one of an active membership
    row of this user in the target organization, and a role it returns is the
    one of an active role assignment of this user in the target
    organization. *)
Theorem no_active_membership_NotFound (req : Request) (w : World)
    (organizationId : option string) (user : JWTUser.t) (target : string) :
  fst (getServerUser req w) = JS.Normal (Some user) ->
  JS.or organizationId (JWTUser.organizationId user) = Some target ->
  JS.truthy target = true ->
  (outage w (OrganizationUserFindFirst (JWTUser.userId user) target) = None ->
   (forall r, In r (organizationUsers (db w)) ->
              OrganizationUser.userId r = JWTUser.userId user ->
              OrganizationUser.organizationId r = target ->
              OrganizationUser.isActive r = false) ->
   fst (getServerUserWithOrganization req organizationId w) = JS.Normal None)
  /\ (forall context,
        fst (getServerUserWithOrganization req organizationId w)
        = JS.Normal (Some context) ->
        (forall o, Context.organization context = Some o ->
           exists r, In r (organizationUsers (db w))
                     /\ OrganizationUser.userId r = JWTUser.userId user
                     /\ OrganizationUser.organizationId r = target
                     /\ OrganizationUser.isActive r = true
                     /\ o = OrganizationUser.organization r)
        /\ (forall role, Context.role context = Some role ->
              exists a, In a (organizationUserRoles (db w))
                        /\ OrganizationUserRole.userId a = JWTUser.userId user
                        /\ OrganizationUserRole.organizationId a = target
                        /\ OrganizationUserRole.isActive a = true
                        /\ role = OrganizationUserRole.role a)).
Proof.
  intros Hu Ht Htruthy. rewrite (targeted_run _ _ _ _ _ Hu Ht Htruthy).
  unfold lookups. unfold_m. split.
  - intros Hup Hrows. rewrite Hup.
    rewrite find_all_false; [reflexivity|].
    intros r Hin.
    destruct (prisma.organizationUser_where (JWTUser.userId user) target r)
      eqn:E; [|reflexivity].
    apply organizationUser_where_iff in E. destruct E as [E1 [E2 E3]].
    rewrite (Hrows r Hin E1 E2) in E3. discriminate.
  - intros context.
    destruct (outage w (OrganizationUserFindFirst _ _)); simpl.
    { intros H; inversion H; subst. split; discriminate. }
    destruct (find _ (organizationUsers (db w))) as [orgUser|] eqn:Em; simpl;
      [|discriminate].
    apply find_some in Em. destruct Em as [Hin Hm].
    apply organizationUser_where_iff in Hm. destruct Hm as [M1 [M2 M3]].
    destruct (outage w (OrganizationUserRoleFindUnique _ _)); simpl.
    { intros H; inversion H; subst. split; discriminate. }
    intros H; inversion H; subst; simpl. split.
    + intros o Ho. inversion Ho; subst. exists orgUser. auto.
    + intros role.
      destruct (find _ (organizationUserRoles (db w))) as [a|] eqn:Ea; simpl;
        [|discriminate].
      intros Hr. inversion Hr; subst.
      apply find_some in Ea. destruct Ea as [Hina Ha].
      apply organizationUserRole_where_iff in Ha. destruct Ha as [A1 [A2 A3]].
      exists a. auto.
Qed.

(** C7. For a resolved user, when neither the argument nor the user yields a
    target organization id, [getServerUserWithOrganization] returns the user
    with [organization = null] and [role = null], which is not the [null] of
    a membership miss. *)
Theorem no_target_NoContext (req : Request) (w : World)
    (organizationId : option string) (user : JWTUser.t) :
  fst (getServerUser req w) = JS.Normal (Some user) ->
  JS.falsy (JS.or organizationId (JWTUser.organizationId user)) = true ->
  getServerUserWithOrganization req organizationId w
  = (JS.Normal (Some (NoContext user)), w)
  /\ fst (getServerUserWithOrganization req organizationId w) <> JS.Normal None.
Proof.
  intros Hu Hf. apply resolved_run in Hu. destruct Hu as [Hu _].
  assert (E : getServerUserWithOrganization req organizationId w
              = (JS.Normal (Some (NoContext user)), w)).
  { unfold getServerUserWithOrganization, bind. rewrite Hu.
    destruct (JS.or organizationId (JWTUser.organizationId user)) as [t|];
      simpl in Hf; [rewrite Hf|]; reflexivity. }
  rewrite E. split; [reflexivity | discriminate].
Qed.

(** C8. For a resolved user with an active membership in the target
    organization and no active role assignment there, and a store that
    answers both queries, [getServerUserWithOrganization] returns the
    organization of the membership with [role = null], and [hasPermission]
    then returns [false] for every permission name. *)
Theorem member_without_role (req : Request) (w : World)
    (organizationId : option string) (user : JWTUser.t) (target : string) :
  fst (getServerUser req w) = JS.Normal (Some user) ->
  JS.or organizationId (JWTUser.organizationId user) = Some target ->
  JS.truthy target = true ->
  outage w (OrganizationUserFindFirst (JWTUser.userId user) target) = None ->
  outage w (OrganizationUserRoleFindUnique target (JWTUser.userId user)) = None ->
  (exists r, In r (organizationUsers (db w))
             /\ OrganizationUser.userId r = JWTUser.userId user
             /\ OrganizationUser.organizationId r = target
             /\ OrganizationUser.isActive r = true) ->
  (forall a, In a (organizationUserRoles (db w)) ->
             OrganizationUserRole.organizationId a = target ->
             OrganizationUserRole.userId a = JWTUser.userId user ->
             OrganizationUserRole.isActive a = false) ->
  (exists r, In r (organizationUsers (db w))
             /\ OrganizationUser.userId r = JWTUser.userId user
             /\ OrganizationUser.organizationId r = target
             /\ OrganizationUser.isActive r = true
             /\ getServerUserWithOrganization req organizationId w
                = (JS.Normal
                     (Some {| Context.user := user;
                              Context.organization :=
                                Some (OrganizationUser.organization r);
                              Context.role := None |}), w))
  /\ forall permission,
       hasPermission req permission organizationId w = (JS.Normal false, w).
Proof.
  intros Hu Ht Htruthy Hm Hr [r [Hin [R1 [R2 R3]]]] Hnone.
  assert (Hrow : prisma.organizationUser_where (JWTUser.userId user) target r
                 = true) by (apply organizationUser_where_iff; auto).
  destruct (find_one_true _ _ _ Hin Hrow) as [r' Er'].
  assert (Erole : find (prisma.organizationUserRole_where
                          target (JWTUser.userId user))
                       (organizationUserRoles (db w)) = None).
  { apply find_all_false. intros a Ha.
    destruct (prisma.organizationUserRole_where target (JWTUser.userId user) a)
      eqn:E; [|reflexivity].
    apply organizationUserRole_where_iff in E. destruct E as [E1 [E2 E3]].
    rewrite (Hnone a Ha E1 E2) in E3. discriminate. }
  assert (Erun : getServerUserWithOrganization req organizationId w
                 = (JS.Normal
                      (Some {| Context.user := user;
                               Context.organization :=
                                 Some (OrganizationUser.organization r');
                               Context.role := None |}), w)).
  { rewrite (targeted_run _ _ _ _ _ Hu Ht Htruthy). unfold lookups. unfold_m.
    rewrite Hm, Er', Hr, Erole. reflexivity. }
  split.
  - apply find_some in Er'. destruct Er' as [Hin' Hrow'].
    apply organizationUser_where_iff in Hrow'. destruct Hrow' as [? [? ?]].
    exists r'. auto 6.
  - intros permission. unfold hasPermission, bind. rewrite Erun. reflexivity.
Qed.

(** ** Claims about the session resolver *)

(** C4. When the claims of the token carry a user id and the store lookup for
    that user returns no row, or a user with [isActive = false] or a status
    other than [ACTIVE], [getServerUser] returns [null]. *)
Theorem inactive_user_Unauthenticated (req : Request) (w : World)
    (cookieStore : list (string * string)) (token : string)
    (payload : JWTPayload.t) (row : option User.t) :
  cookies req = JS.Normal cookieStore ->
  cookie_value cookieStore "auth-token" = Some token ->
  verifyToken req token = JS.Normal (Some payload) ->
  JS.truthy (JWTPayload.userId payload) = true ->
  fst (prisma.user_findUnique (JWTPayload.userId payload) w) = JS.Normal row ->
  (row = None
   \/ exists user, row = Some user
        /\ (User.isActive user = false
            \/ User.status user <> UserStatus.ACTIVE)) ->
  getServerUser req w = (JS.Normal None, w).
Proof.
  intros Hc Ht Hv Hid Hrow Hbad.
  unfold getServerUser. unfold_m. rewrite Hc, Ht.
  destruct (negb (JS.truthy token)); [reflexivity|].
  rewrite Hv, Hid. simpl.
  destruct (outage w (UserFindUnique (JWTPayload.userId payload)));
    simpl in Hrow; [discriminate|].
  inversion Hrow as [Hfind]. clear Hrow. rewrite Hfind.
  destruct Hbad as [-> | [user [-> [Hact | Hst]]]]; [reflexivity| |].
  - rewrite Hact. reflexivity.
  - destruct (User.status user) eqn:Est;
      try (rewrite orb_true_r; reflexivity).
    exfalso. apply Hst. reflexivity.
Qed.

(** The result of [getServerUser] depends on the tables and on the adapter,
    not on what the console holds. *)
Lemma getServerUser_console (req : Request) (w1 w2 : World) :
  db w1 = db w2 -> outage w1 = outage w2 ->
  fst (getServerUser req w1) = fst (getServerUser req w2).
Proof.
  destruct w1 as [d1 o1 c1], w2 as [d2 o2 c2]. simpl. intros -> ->.
  unfold getServerUser. unfold_m. simpl.
  repeat step; reflexivity.
Qed.

(** C9. With the request and the store fixed, a second call of
    [getServerUser] returns what the first returned, and no call changes the
    tables of the store or the behaviour of its adapter. *)
Theorem getServerUser_idempotent (req : Request) (w : World) :
  fst (getServerUser req (snd (getServerUser req w)))
  = fst (getServerUser req w)
  /\ db (snd (getServerUser req w)) = db w
  /\ outage (snd (getServerUser req w)) = outage w
  /\ db (snd (getServerUser req (snd (getServerUser req w)))) = db w.
Proof.
  destruct (getServerUser_normal req w) as [r [w1 [E [Hdb Hout]]]].
  rewrite E. simpl.
  destruct (getServerUser_normal req w1) as [r2 [w2 [E2 [Hdb2 _]]]].
  split; [|split; [exact Hdb | split; [exact Hout|]]].
  - rewrite (getServerUser_console req w1 w Hdb Hout), E. reflexivity.
  - rewrite E2. simpl. congruence.
Qed.

(** A collaborator that raises sends [getServerUser] into its handler. *)
Lemma getServerUser_catches (req : Request) (w : World) (e : JS.Error) :
  dependency_failure req w e ->
  getServerUser req w
  = (JS.Normal None, logged w "Server user verification failed:" e).
Proof.
  intros [Hc | cs token Hc Ht Htr Hv | cs token payload Hc Ht Htr Hv Hid Ho];
    unfold getServerUser; unfold_m; rewrite Hc; [reflexivity| |];
    rewrite Ht, Htr, Hv; simpl; [reflexivity|].
  rewrite Hid. simpl. rewrite Ho. reflexivity.
Qed.

Lemma getServerUser_no_token (req : Request) (w : World) :
  no_token req -> getServerUser req w = (JS.Normal None, w).
Proof.
  intros [cs [Hc Hf]]. unfold getServerUser. unfold_m. rewrite Hc.
  destruct (cookie_value cs "auth-token") as [token|]; [|reflexivity].
  simpl in Hf. rewrite Hf. reflexivity.
Qed.

(** C10. [getServerUser] never raises: it returns a user or [null].  When a
    collaborator raises (the cookie jar, the token codec or the store), the
    error goes to the console and the result is [null], the result of a
    request without a token. *)
Theorem getServerUser_never_throws (req : Request) (w : World) :
  (exists r w', getServerUser req w = (JS.Normal r, w'))
  /\ (forall e, dependency_failure req w e ->
        getServerUser req w
        = (JS.Normal None, logged w "Server user verification failed:" e))
  /\ (no_token req -> getServerUser req w = (JS.Normal None, w)).
Proof.
  split; [|split].
  - destruct (getServerUser_normal req w) as [r [w' [E _]]]. eauto.
  - apply getServerUser_catches.
  - apply getServerUser_no_token.
Qed.

(** ** Claims about the require functions *)

Lemma requireServerAuth_error (req : Request) (w : World) (e : JS.Error) :
  fst (requireServerAuth req w) = JS.Throw e ->
  e = JS.mkError "Authentication required".
Proof.
  unfold requireServerAuth, bind.
  destruct (getServerUser_normal req w) as [r [w' [E _]]]. rewrite E.
  destruct r; simpl; intros H; inversion H; reflexivity.
Qed.

(** How a call of [requirePermission] ends: it returns when [hasPermission]
    returned [true] and raises [Error("Permission denied: <name>")] when it
    returned [false]; the resolver and the context resolver raise nothing. *)
Lemma requirePermission_outcome (req : Request) (permission : string)
    (organizationId : option string) (w : World) :
  ((exists w',
      requirePermission req permission organizationId w = (JS.Normal tt, w')
      /\ hasPermission req permission organizationId w = (JS.Normal true, w'))
   \/ (exists w',
         requirePermission req permission organizationId w
         = (JS.Throw (JS.mkError ("Permission denied: " ++ permission)), w')
         /\ hasPermission req permission organizationId w
            = (JS.Normal false, w')))
  /\ (forall w0 e0,
        fst (requireServerAuth req w0) = JS.Throw e0 ->
        e0 <> JS.mkError ("Permission denied: " ++ permission))
  /\ (forall w0, exists r, fst (getServerUser req w0) = JS.Normal r)
  /\ (forall o w0,
        exists r, fst (getServerUserWithOrganization req o w0) = JS.Normal r).
Proof.
  split; [|split; [|split]];
    [| | intros w0; destruct (getServerUser_normal req w0) as [r [w1 [E _]]];
         exists r; rewrite E; reflexivity
       | intros o w0;
         destruct (getServerUserWithOrganization_normal req w0 o)
           as [r [w1 [E _]]];
         exists r; rewrite E; reflexivity].
  - unfold requirePermission, bind.
    destruct (hasPermission_normal req w permission organizationId)
      as [b [w' E]].
    rewrite E. destruct b; [left | right]; exists w'; split; reflexivity.
  - intros w0 e0 H. apply requireServerAuth_error in H. subst e0.
    simpl. discriminate.
Qed.

Lemma requirePermission_of_false (req : Request) (permission : string)
    (organizationId : option string) (w : World) :
  fst (hasPermission req permission organizationId w) = JS.Normal false ->
  fst (requirePermission req permission organizationId w)
  = JS.Throw (PermissionDenied permission).
Proof.
  unfold requirePermission, bind.
  destruct (hasPermission req permission organizationId w) as [c w'].
  simpl. intros ->. reflexivity.
Qed.

(** What [hasPermission] makes of each outcome of the context resolver. *)
Lemma hasPermission_of_context (req : Request) (permission : string)
    (organizationId : option string) (w : World) :
  (fst (getServerUserWithOrganization req organizationId w) = JS.Normal None ->
   fst (hasPermission req permission organizationId w) = JS.Normal false)
  /\ (forall context,
        fst (getServerUserWithOrganization req organizationId w)
        = JS.Normal (Some context) ->
        Context.role context = None ->
        fst (hasPermission req permission organizationId w) = JS.Normal false)
  /\ (forall context role,
        fst (getServerUserWithOrganization req organizationId w)
        = JS.Normal (Some context) ->
        Context.role context = Some role ->
        (forall g, In g (OrganizationRole.permissions role) ->
                   OrganizationRolePermission.allowed g = true ->
                   ~ grant_matches g permission) ->
        fst (hasPermission req permission organizationId w) = JS.Normal false).
Proof.
  unfold hasPermission, bind.
  destruct (getServerUserWithOrganization req organizationId w) as [c w'].
  simpl. split; [|split].
  - intros ->. reflexivity.
  - intros context -> Hrole. rewrite Hrole. reflexivity.
  - intros context role -> Hrole Hnone. rewrite Hrole.
    destruct (if some_allowed role permission then true
              else if some_allowed role (wildcardPermission permission)
                   then true else some_allowed role "*") eqn:Hchecks.
    + apply role_checks_iff in Hchecks.
      destruct Hchecks as [g [Hin [Hallowed Hname]]].
      exfalso. exact (Hnone g Hin Hallowed Hname).
    + destruct (some_allowed role permission); [discriminate|].
      destruct (some_allowed role (wildcardPermission permission));
        [discriminate|].
      simpl. rewrite Hchecks. reflexivity.
Qed.

(** C6, as the code has it.  A call of [requirePermission] that does not
    succeed raises [Error("Permission denied: <name>")] whatever the cause:
    a request that resolves no user, a context resolver that returns [null],
    a context without a role (no target organization, a store failure, no
    role assigned) and a role without a matching grant all end in this one
    error, so the error does not tell them apart.  It differs from the
    error [requireServerAuth] raises. *)
Theorem requirePermission_hides_the_cause (req : Request)
    (permission : string) (organizationId : option string) (w : World) :
  (fst (requirePermission req permission organizationId w) = JS.Normal tt
   /\ fst (hasPermission req permission organizationId w) = JS.Normal true
   \/ fst (requirePermission req permission organizationId w)
      = JS.Throw (PermissionDenied permission)
      /\ fst (hasPermission req permission organizationId w) = JS.Normal false)
  /\ (fst (getServerUser req w) = JS.Normal None ->
      fst (requirePermission req permission organizationId w)
      = JS.Throw (PermissionDenied permission))
  /\ (fst (getServerUserWithOrganization req organizationId w)
      = JS.Normal None ->
      fst (requirePermission req permission organizationId w)
      = JS.Throw (PermissionDenied permission))
  /\ (forall context,
        fst (getServerUserWithOrganization req organizationId w)
        = JS.Normal (Some context) ->
        Context.role context = None ->
        fst (requirePermission req permission organizationId w)
        = JS.Throw (PermissionDenied permission))
  /\ (forall context role,
        fst (getServerUserWithOrganization req organizationId w)
        = JS.Normal (Some context) ->
        Context.role context = Some role ->
        (forall g, In g (OrganizationRole.permissions role) ->
                   OrganizationRolePermission.allowed g = true ->
                   ~ grant_matches g permission) ->
        fst (requirePermission req permission organizationId w)
        = JS.Throw (PermissionDenied permission))
  /\ (forall w0 e0,
        fst (requireServerAuth req w0) = JS.Throw e0 ->
        e0 <> PermissionDenied permission).
Proof.
  destruct (hasPermission_of_context req permission organizationId w)
    as [Hnull [Hnorole Hnogrant]].
  split; [|split; [|split; [|split; [|split]]]].
  - destruct (hasPermission_normal req w permission organizationId)
      as [b [w' E]].
    destruct b; [left | right].
    + split; [|rewrite E; reflexivity].
      unfold requirePermission, bind. rewrite E. reflexivity.
    + split; [|rewrite E; reflexivity].
      apply requirePermission_of_false. rewrite E. reflexivity.
  - intros Hu. apply requirePermission_of_false, Hnull.
    apply (unresolved_run req w Hu).
  - intros H. apply requirePermission_of_false, Hnull, H.
  - intros context H Hrole.
    apply requirePermission_of_false. exact (Hnorole context H Hrole).
  - intros context role H Hrole Hnone.
    apply requirePermission_of_false.
    exact (Hnogrant context role H Hrole Hnone).
  - intros w0 e0 H. apply requireServerAuth_error in H. subst e0.
    unfold PermissionDenied. simpl. discriminate.
Qed.

(** ** Store failures *)

(** C2, as the code has it.  A store failure is caught and logged, not
    reported upward: [validateOrganizationAccess] returns [false];
    [getServerUserWithOrganization] returns the user with
    [organization = null] and [role = null] when the membership query or the
    role query raises, and [null] when a collaborator of [getServerUser]
    raises. *)
Theorem store_failure_is_caught (req : Request) (w : World) (e : JS.Error) :
  (forall userId organizationId,
     outage w (OrganizationUserFindFirst userId organizationId) = Some e ->
     validateOrganizationAccess userId organizationId w
     = (JS.Normal false,
        logged w "Failed to validate organization access:" e))
  /\ (forall organizationId user target,
        fst (getServerUser req w) = JS.Normal (Some user) ->
        JS.or organizationId (JWTUser.organizationId user) = Some target ->
        JS.truthy target = true ->
        outage w (OrganizationUserFindFirst (JWTUser.userId user) target)
          = Some e
        \/ (outage w (OrganizationUserFindFirst (JWTUser.userId user) target)
              = None
            /\ (exists r, In r (organizationUsers (db w))
                  /\ OrganizationUser.userId r = JWTUser.userId user
                  /\ OrganizationUser.organizationId r = target
                  /\ OrganizationUser.isActive r = true)
            /\ outage w (OrganizationUserRoleFindUnique
                           target (JWTUser.userId user)) = Some e) ->
        getServerUserWithOrganization req organizationId w
        = (JS.Normal (Some (NoContext user)),
           logged w "Failed to get user organization context:" e))
  /\ (forall organizationId,
        dependency_failure req w e ->
        getServerUserWithOrganization req organizationId w
        = (JS.Normal None, logged w "Server user verification failed:" e)).
Proof.
  split; [|split].
  - intros userId organizationId Ho.
    unfold validateOrganizationAccess. unfold_m. rewrite Ho. reflexivity.
  - intros organizationId user target Hu Ht Htruthy Hfail.
    rewrite (targeted_run _ _ _ _ _ Hu Ht Htruthy). unfold lookups. unfold_m.
    destruct Hfail as [Ho | [Ho [[r [Hin [R1 [R2 R3]]]] Hrole]]].
    + rewrite Ho. reflexivity.
    + rewrite Ho.
      assert (Hrow : prisma.organizationUser_where
                       (JWTUser.userId user) target r = true)
        by (apply organizationUser_where_iff; auto).
      destruct (find_one_true _ _ _ Hin Hrow) as [r' ->].
      rewrite Hrole. reflexivity.
  - intros organizationId Hdep.
    unfold getServerUserWithOrganization, bind.
    rewrite (getServerUser_catches req w e Hdep).
    reflexivity.
Qed.

(** ** Runs on the scenario store *)

Section Runs.

Import Scenario.

(** Organization A gives the Viewer role, organization B the Admin role;
    the grants of one never answer for the other. *)
Example viewer_cannot_create :
  hasPermission alice_request "products.create" (Some "orgA") healthy
  = (JS.Normal false, healthy).
Proof. reflexivity. Qed.

Example viewer_can_read :
  hasPermission alice_request "products.read" (Some "orgA") healthy
  = (JS.Normal true, healthy).
Proof. reflexivity. Qed.

Example admin_can_create :
  hasPermission alice_request "products.create" (Some "orgB") healthy
  = (JS.Normal true, healthy).
Proof. reflexivity. Qed.

(** A category wildcard answers for its category only. *)
Example category_wildcard :
  some_allowed manager (wildcardPermission "products.create") = true
  /\ some_allowed manager (wildcardPermission "inventory.create") = false
  /\ some_allowed manager "inventory.create" = false.
Proof. repeat split; reflexivity. Qed.

Example split_examples :
  JS.split "." "products.create" = ["products"; "create"]
  /\ JS.split "." "a.b.c" = ["a"; "b"; "c"]
  /\ JS.split "." "" = [""]
  /\ JS.split "." "*" = ["*"]
  /\ JS.split "." ".x." = [""; "x"; ""].
Proof. repeat split; reflexivity. Qed.

(** C2, as the claim has it, fails.  With the store down,
    [validateOrganizationAccess] answers [false] for a user who is an active
    member, the answer it gives for a user who is not; and
    [getServerUserWithOrganization] answers [null], the answer it gives for a
    membership miss. *)
Lemma store_failure_looks_like_denial :
  outage down (OrganizationUserFindFirst "u1" "orgA") = Some ECONNREFUSED
  /\ fst (validateOrganizationAccess "u1" "orgA" down) = JS.Normal false
  /\ fst (validateOrganizationAccess "u1" "orgC" healthy) = JS.Normal false
  /\ fst (validateOrganizationAccess "u1" "orgA" healthy) = JS.Normal true
  /\ outage down (UserFindUnique "u1") = Some ECONNREFUSED
  /\ fst (getServerUserWithOrganization alice_request (Some "orgA") down)
     = JS.Normal None
  /\ fst (getServerUserWithOrganization alice_request (Some "orgC") healthy)
     = JS.Normal None.
Proof. repeat split; reflexivity. Qed.

(** C5, on the code.  The token embeds organization C, in which the
    membership of the user is switched off.  Called without an argument,
    [getServerUserWithOrganization] does not look organization C up: the user
    [getServerUser] returns carries no organization id, and the result is
    the user with [organization = null] and [role = null].  Called with
    organization C as the argument, it returns [null]. *)
Theorem embedded_organization_ignored :
  verifyToken alice_request "token-alice"
  = JS.Normal (Some (claims "u1" (Some "orgC")))
  /\ getServerUser alice_request healthy = (JS.Normal (Some alice_user), healthy)
  /\ getServerUserWithOrganization alice_request None healthy
     = (JS.Normal (Some (NoContext alice_user)), healthy)
  /\ getServerUserWithOrganization alice_request (Some "orgC") healthy
     = (JS.Normal None, healthy).
Proof. repeat split; reflexivity. Qed.

End Runs.

(** Whatever the claims of the token embed, a call without an argument has
    no target organization. *)
Lemma fallback_never_resolves (req : Request) (w : World) (user : JWTUser.t) :
  fst (getServerUser req w) = JS.Normal (Some user) ->
  JS.or None (JWTUser.organizationId user) = None
  /\ getServerUserWithOrganization req None w
     = (JS.Normal (Some (NoContext user)), w).
Proof.
  intros Hu. destruct (resolved_run _ _ _ Hu) as [E Horg].
  unfold getServerUserWithOrganization, bind. rewrite E, Horg. auto.
Qed.

(** A non-empty argument is the target organization. *)
Lemma explicit_argument_is_target (organizationId : string)
    (embedded : option string) :
  JS.truthy organizationId = true ->
  JS.or (Some organizationId) embedded = Some organizationId.
Proof. intros H. simpl. rewrite H. reflexivity. Qed.

(** ** The theorems at work on the scenario store *)

Section Witnesses.

Import Scenario.

Lemma hasPermission_iff_witness :
  exists b,
    hasPermission alice_request "products.create" (Some "orgB") healthy
    = (JS.Normal b, healthy)
    /\ b = true.
Proof.
  destruct (hasPermission_iff alice_request "products.create" (Some "orgB")
              healthy healthy
              {| Context.user := alice_user;
                 Context.organization := Some (org "orgB" "orgB");
                 Context.role := Some admin |} eq_refl)
    as [b [Hrun [Hiff _]]].
  exists b. split; [exact Hrun|].
  apply Hiff. exists admin. split; [reflexivity|].
  exists (grant "r-admin" "*" true). simpl. auto.
Defined.

Lemma store_failure_is_caught_witness :
  validateOrganizationAccess "u1" "orgA" memberships_down
  = (JS.Normal false,
     logged memberships_down "Failed to validate organization access:"
            ECONNREFUSED)
  /\ getServerUserWithOrganization alice_request (Some "orgA") memberships_down
     = (JS.Normal (Some (NoContext alice_user)),
        logged memberships_down "Failed to get user organization context:"
               ECONNREFUSED)
  /\ getServerUserWithOrganization alice_request (Some "orgA") roles_down
     = (JS.Normal (Some (NoContext alice_user)),
        logged roles_down "Failed to get user organization context:"
               ECONNREFUSED)
  /\ getServerUserWithOrganization alice_request (Some "orgA") down
     = (JS.Normal None,
        logged down "Server user verification failed:" ECONNREFUSED).
Proof.
  split; [|split; [|split]].
  - apply (proj1 (store_failure_is_caught alice_request memberships_down
                    ECONNREFUSED)).
    reflexivity.
  - apply (proj1 (proj2 (store_failure_is_caught alice_request
                           memberships_down ECONNREFUSED))
             (Some "orgA") alice_user "orgA");
      try reflexivity.
    left. reflexivity.
  - apply (proj1 (proj2 (store_failure_is_caught alice_request roles_down
                           ECONNREFUSED))
             (Some "orgA") alice_user "orgA");
      try reflexivity.
    right. split; [reflexivity|]. split; [|reflexivity].
    exists (membership "m1" "orgA" true). simpl. auto.
  - apply (proj2 (proj2 (store_failure_is_caught alice_request down
                           ECONNREFUSED))).
    apply store_raises
      with (cookieStore := [("theme", "dark"); ("auth-token", "token-alice")])
           (token := "token-alice") (payload := claims "u1" (Some "orgC"));
      reflexivity.
Defined.

Lemma no_active_membership_NotFound_witness :
  fst (getServerUser alice_request healthy) = JS.Normal (Some alice_user)
  /\ fst (getServerUserWithOrganization alice_request (Some "orgC") healthy)
     = JS.Normal None.
Proof.
  split; [reflexivity|].
  apply (proj1 (no_active_membership_NotFound alice_request healthy
                  (Some "orgC") alice_user "orgC" eq_refl eq_refl eq_refl)).
  - reflexivity.
  - simpl. intros r [<- | [<- | [<- | [<- | []]]]] _ Horg;
      try discriminate Horg; reflexivity.
Defined.

Lemma inactive_user_Unauthenticated_witness :
  User.status bob = UserStatus.SUSPENDED
  /\ getServerUser (request "token-bob") healthy = (JS.Normal None, healthy).
Proof.
  split; [reflexivity|].
  apply (inactive_user_Unauthenticated (request "token-bob") healthy
           [("theme", "dark"); ("auth-token", "token-bob")] "token-bob"
           (claims "u2" None) (Some bob));
    try reflexivity.
  right. exists bob. split; [reflexivity|]. right. discriminate.
Defined.

Lemma no_target_NoContext_witness :
  getServerUserWithOrganization alice_request None healthy
  = (JS.Normal (Some (NoContext alice_user)), healthy)
  /\ fst (getServerUserWithOrganization alice_request None healthy)
     <> JS.Normal None.
Proof.
  apply (no_target_NoContext alice_request healthy None alice_user);
    reflexivity.
Defined.

Lemma member_without_role_witness :
  getServerUserWithOrganization alice_request (Some "orgD") healthy
  = (JS.Normal (Some {| Context.user := alice_user;
                        Context.organization := Some (org "orgD" "orgD");
                        Context.role := None |}), healthy)
  /\ forall permission,
       hasPermission alice_request permission (Some "orgD") healthy
       = (JS.Normal false, healthy).
Proof.
  assert (H := member_without_role alice_request healthy (Some "orgD")
                 alice_user "orgD" eq_refl eq_refl eq_refl eq_refl eq_refl).
  split; [reflexivity|].
  apply H.
  - exists (membership "m4" "orgD" true). simpl. auto 8.
  - simpl. intros a [<- | [<- | [<- | []]]] Horg _;
      try discriminate Horg.
Defined.

End Witnesses.

Section RequireWitnesses.

Import Scenario.

Lemma getServerUser_never_throws_witness :
  getServerUser alice_request down
  = (JS.Normal None,
     logged down "Server user verification failed:" ECONNREFUSED)
  /\ getServerUser anonymous down = (JS.Normal None, down).
Proof.
  split.
  - apply (proj1 (proj2 (getServerUser_never_throws alice_request down))).
    apply store_raises
      with (cookieStore := [("theme", "dark"); ("auth-token", "token-alice")])
           (token := "token-alice") (payload := claims "u1" (Some "orgC"));
      reflexivity.
  - apply (proj2 (proj2 (getServerUser_never_throws anonymous down))).
    exists [("theme", "dark")]. split; reflexivity.
Defined.

Lemma requirePermission_outcome_witness :
  requirePermission anonymous "products.create" (Some "orgA") healthy
  = (JS.Throw (JS.mkError "Permission denied: products.create"), healthy)
  /\ fst (requireServerAuth anonymous healthy)
     = JS.Throw (JS.mkError "Authentication required")
  /\ JS.mkError "Authentication required"
     <> JS.mkError ("Permission denied: " ++ "products.create").
Proof.
  split; [reflexivity|]. split; [reflexivity|].
  apply (proj1 (proj2 (requirePermission_outcome anonymous "products.create"
                         (Some "orgA") healthy)) healthy).
  reflexivity.
Defined.

End RequireWitnesses.

Section RequirePermissionRuns.

Import Scenario.

(** C6, as the claim has it, fails.  A request without a token
    (Unauthenticated), a call without a target organization (NoContext) and
    a member whose role lacks the grant all make [requirePermission] raise
    the same error. *)
Lemma permission_denied_hides_the_cause :
  fst (getServerUser anonymous healthy) = JS.Normal None
  /\ fst (requirePermission anonymous "products.create" (Some "orgA") healthy)
     = JS.Throw (JS.mkError "Permission denied: products.create")
  /\ fst (getServerUserWithOrganization alice_request None healthy)
     = JS.Normal (Some (NoContext alice_user))
  /\ fst (requirePermission alice_request "products.create" None healthy)
     = JS.Throw (JS.mkError "Permission denied: products.create")
  /\ fst (getServerUserWithOrganization alice_request (Some "orgA") healthy)
     = JS.Normal (Some {| Context.user := alice_user;
                          Context.organization := Some (org "orgA" "orgA");
                          Context.role := Some viewer |})
  /\ fst (requirePermission alice_request "products.create" (Some "orgA")
            healthy)
     = JS.Throw (JS.mkError "Permission denied: products.create").
Proof. repeat split; reflexivity. Qed.

Lemma requirePermission_hides_the_cause_witness :
  fst (requirePermission anonymous "products.create" (Some "orgA") healthy)
  = JS.Throw (PermissionDenied "products.create")
  /\ fst (requirePermission alice_request "products.create" None healthy)
     = JS.Throw (PermissionDenied "products.create")
  /\ fst (requirePermission alice_request "products.create" (Some "orgC")
            healthy)
     = JS.Throw (PermissionDenied "products.create")
  /\ fst (requirePermission alice_request "products.create" (Some "orgA")
            healthy)
     = JS.Throw (PermissionDenied "products.create").
Proof.
  split; [|split; [|split]].
  - apply (proj1 (proj2 (requirePermission_hides_the_cause anonymous
                           "products.create" (Some "orgA") healthy))).
    reflexivity.
  - apply (proj1 (proj2 (proj2 (proj2
             (requirePermission_hides_the_cause alice_request
                "products.create" None healthy))))
             (NoContext alice_user));
      reflexivity.
  - apply (proj1 (proj2 (proj2 (requirePermission_hides_the_cause
                                  alice_request "products.create"
                                  (Some "orgC") healthy)))).
    reflexivity.
  - apply (proj1 (proj2 (proj2 (proj2 (proj2
             (requirePermission_hides_the_cause alice_request
                "products.create" (Some "orgA") healthy)))))
             {| Context.user := alice_user;
                Context.organization := Some (org "orgA" "orgA");
                Context.role := Some viewer |} viewer);
      try reflexivity.
    intros g Hin _ Hmatch. simpl in Hin. destruct Hin as [<- | []].
    destruct Hmatch as [H | [H | H]]; discriminate H.
Defined.

End RequirePermissionRuns.

(** * Further properties of lib/auth-server.ts *)

(** ** Who [getServerUser] resolves *)

(** What a run of [getServerUser] that returns a user went through. *)
Lemma getServerUser_inversion (req : Request) (w : World) (u : JWTUser.t) :
  fst (getServerUser req w) = JS.Normal (Some u) ->
  exists cookieStore token payload row,
    cookies req = JS.Normal cookieStore
    /\ cookie_value cookieStore "auth-token" = Some token
    /\ JS.truthy token = true
    /\ verifyToken req token = JS.Normal (Some payload)
    /\ JS.truthy (JWTPayload.userId payload) = true
    /\ outage w (UserFindUnique (JWTPayload.userId payload)) = None
    /\ find (fun r => User.id r =? JWTPayload.userId payload) (users (db w))
       = Some row
    /\ User.isActive row = true
    /\ User.status row = UserStatus.ACTIVE
    /\ u = identity_of row.
Proof.
  unfold getServerUser. unfold_m.
  destruct (cookies req) as [cs|] eqn:Hc; simpl; [|discriminate].
  destruct (cookie_value cs "auth-token") as [token|] eqn:Ht; simpl;
    [|discriminate].
  destruct (JS.truthy token) eqn:Htr; simpl; [|discriminate].
  destruct (verifyToken req token) as [[payload|]|] eqn:Hv; simpl;
    try discriminate.
  destruct (JS.truthy (JWTPayload.userId payload)) eqn:Hid; simpl;
    [|discriminate].
  destruct (outage w (UserFindUnique _)) eqn:Ho; simpl; [discriminate|].
  destruct (find _ (users (db w))) as [row|] eqn:Hf; simpl; [|discriminate].
  destruct (User.isActive row) eqn:Ha; simpl; [|discriminate].
  destruct (User.status row) eqn:Hs; simpl; try discriminate.
  intros H. inversion H. exists cs, token, payload, row.
  unfold identity_of. auto 12.
Qed.

(** X1. [getServerUser] returns a user exactly when the cookie holds a
    non-empty token, the codec decodes it to claims with a non-empty user
    id, and the store answers the lookup with a row that is active with
    status [ACTIVE]; the identity returned is built from that row. *)
Theorem getServerUser_resolved_iff (req : Request) (w : World) (u : JWTUser.t) :
  fst (getServerUser req w) = JS.Normal (Some u) <->
  exists cookieStore token payload row,
    cookies req = JS.Normal cookieStore
    /\ cookie_value cookieStore "auth-token" = Some token
    /\ JS.truthy token = true
    /\ verifyToken req token = JS.Normal (Some payload)
    /\ JS.truthy (JWTPayload.userId payload) = true
    /\ outage w (UserFindUnique (JWTPayload.userId payload)) = None
    /\ find (fun r => User.id r =? JWTPayload.userId payload) (users (db w))
       = Some row
    /\ User.isActive row = true
    /\ User.status row = UserStatus.ACTIVE
    /\ u = identity_of row.
Proof.
  split; [apply getServerUser_inversion|].
  intros [cs [token [payload [row [Hc [Ht [Htr [Hv [Hid [Ho [Hf [Ha [Hs ->]]]]]]]]]]]]].
  unfold getServerUser. unfold_m.
  rewrite Hc, Ht, Htr. simpl. rewrite Hv, Hid. simpl.
  rewrite Ho, Hf. simpl. rewrite Ha, Hs. reflexivity.
Qed.

(** The user id of a resolved user is the one of the token, and not empty. *)
Lemma resolved_userId (req : Request) (w : World) (u : JWTUser.t) :
  fst (getServerUser req w) = JS.Normal (Some u) ->
  JS.truthy (JWTUser.userId u) = true
  /\ exists row, In row (users (db w))
       /\ User.id row = JWTUser.userId u
       /\ User.isActive row = true
       /\ User.status row = UserStatus.ACTIVE.
Proof.
  intros H. apply getServerUser_inversion in H.
  destruct H as [cs [token [payload [row [_ [_ [_ [_ [Hid [_ [Hf [Ha [Hs ->]]]]]]]]]]]]].
  apply find_some in Hf. destruct Hf as [Hin Heq].
  apply String.eqb_eq in Heq. simpl. rewrite Heq. eauto 8.
Qed.

(** X2. [getServerUserId] returns the user id of the user [getServerUser]
    returns, and [null] when it returns [null]; it leaves the same world
    behind, and the id it returns is never the empty string. *)
Theorem getServerUserId_spec (req : Request) (w : World) :
  exists r w',
    getServerUser req w = (JS.Normal r, w')
    /\ getServerUserId req w = (JS.Normal (option_map JWTUser.userId r), w')
    /\ forall id, fst (getServerUserId req w) = JS.Normal (Some id) ->
                  JS.truthy id = true.
Proof.
  destruct (getServerUser_normal req w) as [r [w' [E _]]].
  exists r, w'. split; [exact E|].
  assert (Hid : forall u, r = Some u -> JS.truthy (JWTUser.userId u) = true).
  { intros u ->. apply (resolved_userId req w). rewrite E. reflexivity. }
  assert (Hrun : getServerUserId req w
                 = (JS.Normal (option_map JWTUser.userId r), w')).
  { unfold getServerUserId, bind. rewrite E. unfold ret.
    destruct r as [u|]; simpl; [|reflexivity].
    rewrite (Hid u eq_refl). reflexivity. }
  split; [exact Hrun|].
  intros id. rewrite Hrun. simpl. destruct r as [u|]; simpl; intros H;
    inversion H; subst. apply Hid. reflexivity.
Qed.

(** X3. The three ways to ask for the current user agree.  Either
    [isServerAuthenticated] is [true], [requireServerAuth] returns the user
    of [getServerUser] and [getServerUserId] returns its id; or
    [isServerAuthenticated] is [false], [requireServerAuth] raises
    [Error("Authentication required")] and the two others return [null]. *)
Theorem authentication_agrees (req : Request) (w : World) :
  (exists u,
     fst (getServerUser req w) = JS.Normal (Some u)
     /\ fst (isServerAuthenticated req w) = JS.Normal true
     /\ fst (requireServerAuth req w) = JS.Normal u
     /\ fst (getServerUserId req w) = JS.Normal (Some (JWTUser.userId u)))
  \/ (fst (getServerUser req w) = JS.Normal None
      /\ fst (isServerAuthenticated req w) = JS.Normal false
      /\ fst (requireServerAuth req w)
         = JS.Throw (JS.mkError "Authentication required")
      /\ fst (getServerUserId req w) = JS.Normal None).
Proof.
  destruct (getServerUser_normal req w) as [r [w' [E _]]].
  destruct r as [u|]; [left; exists u | right];
    unfold isServerAuthenticated, requireServerAuth, getServerUserId, bind;
    rewrite E; simpl; repeat split; try reflexivity.
  assert (Hid : JS.truthy (JWTUser.userId u) = true).
  { apply (resolved_userId req w). rewrite E. reflexivity. }
  rewrite Hid. reflexivity.
Qed.

(** The result of [getServerUser] depends on the request through the user id
    of the claims its token decodes to only. *)
Lemma getServerUser_same_userId (req1 req2 : Request) (w : World)
    (cookieStore1 cookieStore2 : list (string * string))
    (token1 token2 : string) (p1 p2 : JWTPayload.t) :
  cookies req1 = JS.Normal cookieStore1 ->
  cookie_value cookieStore1 "auth-token" = Some token1 ->
  JS.truthy token1 = true ->
  verifyToken req1 token1 = JS.Normal (Some p1) ->
  cookies req2 = JS.Normal cookieStore2 ->
  cookie_value cookieStore2 "auth-token" = Some token2 ->
  JS.truthy token2 = true ->
  verifyToken req2 token2 = JS.Normal (Some p2) ->
  JWTPayload.userId p1 = JWTPayload.userId p2 ->
  getServerUser req1 w = getServerUser req2 w.
Proof.
  intros Hc1 Ht1 Htr1 Hv1 Hc2 Ht2 Htr2 Hv2 Hid.
  unfold getServerUser. unfold_m.
  rewrite Hc1, Hc2, Ht1, Ht2, Htr1, Htr2. simpl.
  rewrite Hv1, Hv2, Hid. reflexivity.
Qed.

(** X4. Two requests whose tokens (any two non-empty token strings, each in
    its own cookie jar and decoded by its own codec) decode to claims with the
    same user id resolve alike, whatever else the claims carry (organization
    id, role id, cached permissions, names): the user, the organization
    context and every permission check are the same. *)
Theorem claims_beyond_userId_ignored (req1 req2 : Request) (w : World)
    (cookieStore1 cookieStore2 : list (string * string))
    (token1 token2 : string) (p1 p2 : JWTPayload.t) :
  cookies req1 = JS.Normal cookieStore1 ->
  cookie_value cookieStore1 "auth-token" = Some token1 ->
  JS.truthy token1 = true ->
  verifyToken req1 token1 = JS.Normal (Some p1) ->
  cookies req2 = JS.Normal cookieStore2 ->
  cookie_value cookieStore2 "auth-token" = Some token2 ->
  JS.truthy token2 = true ->
  verifyToken req2 token2 = JS.Normal (Some p2) ->
  JWTPayload.userId p1 = JWTPayload.userId p2 ->
  getServerUser req1 w = getServerUser req2 w
  /\ (forall organizationId,
        getServerUserWithOrganization req1 organizationId w
        = getServerUserWithOrganization req2 organizationId w)
  /\ (forall permission organizationId,
        hasPermission req1 permission organizationId w
        = hasPermission req2 permission organizationId w).
Proof.
  intros Hc1 Ht1 Htr1 Hv1 Hc2 Ht2 Htr2 Hv2 Hid.
  assert (E : getServerUser req1 w = getServerUser req2 w)
    by (eapply getServerUser_same_userId; eauto).
  assert (E2 : forall organizationId,
             getServerUserWithOrganization req1 organizationId w
             = getServerUserWithOrganization req2 organizationId w).
  { intros o. unfold getServerUserWithOrganization, bind. rewrite E.
    reflexivity. }
  split; [exact E|]. split; [exact E2|].
  intros permission o. unfold hasPermission, bind. rewrite E2. reflexivity.
Qed.

(** X5. Called without an organization id (or with the empty string),
    [hasPermission] returns [false] and [requirePermission] raises, whoever
    the user is and whatever the store holds. *)
Theorem hasPermission_without_organization (req : Request) (w : World)
    (permission : string) (organizationId : option string) :
  JS.falsy organizationId = true ->
  fst (hasPermission req permission organizationId w) = JS.Normal false
  /\ fst (requirePermission req permission organizationId w)
     = JS.Throw (JS.mkError ("Permission denied: " ++ permission)).
Proof.
  intros Hf.
  assert (H : fst (hasPermission req permission organizationId w)
              = JS.Normal false).
  { unfold hasPermission, getServerUserWithOrganization, bind.
    destruct (getServerUser req w) as [c w'] eqn:E.
    destruct c as [[u|]|e].
    - destruct (getServerUser_resolved _ _ _ _ E) as [-> Horg]. rewrite Horg.
      destruct organizationId as [o|]; simpl in *; [|reflexivity].
      apply negb_true_iff in Hf. rewrite Hf. reflexivity.
    - reflexivity.
    - destruct (getServerUser_normal req w) as [r [w1 [E1 _]]]. congruence. }
  split; [exact H|].
  unfold requirePermission, bind.
  destruct (hasPermission req permission organizationId w) as [c w'].
  simpl in H. subst c. reflexivity.
Qed.

(** ** What a granted permission rests on *)

(** A context with a role comes from an explicit target organization, an
    active membership and an active role assignment of the resolved user. *)
Lemma context_role_inversion (req : Request) (w : World)
    (organizationId : option string) (context : Context.t)
    (role : OrganizationRole.t) :
  fst (getServerUserWithOrganization req organizationId w)
  = JS.Normal (Some context) ->
  Context.role context = Some role ->
  exists target m a,
    organizationId = Some target
    /\ JS.truthy target = true
    /\ fst (getServerUser req w) = JS.Normal (Some (Context.user context))
    /\ active_membership w (JWTUser.userId (Context.user context)) target m
    /\ active_assignment w (JWTUser.userId (Context.user context)) target a
    /\ Context.organization context = Some (OrganizationUser.organization m)
    /\ role = OrganizationUserRole.role a.
Proof.
  unfold getServerUserWithOrganization, bind.
  destruct (getServerUser req w) as [c w0] eqn:E.
  destruct c as [[u|]|e]; simpl; try discriminate.
  destruct (getServerUser_resolved _ _ _ _ E) as [-> Horg]. rewrite Horg.
  destruct organizationId as [target|]; unfold JS.or;
    [|intros H; inversion H; subst; discriminate].
  destruct (JS.truthy target) eqn:Htr;
    [|intros H; inversion H; subst; discriminate].
  rewrite Htr. unfold_m. simpl.
  destruct (outage w (OrganizationUserFindFirst _ _)); simpl;
    [intros H; inversion H; subst; discriminate|].
  destruct (find _ (organizationUsers (db w))) as [m|] eqn:Em; simpl;
    [|discriminate].
  destruct (outage w (OrganizationUserRoleFindUnique _ _)); simpl;
    [intros H; inversion H; subst; discriminate|].
  destruct (find _ (organizationUserRoles (db w))) as [a|] eqn:Ea; simpl;
    [|intros H; inversion H; subst; discriminate].
  intros H Hr. inversion H; subst; simpl in *. inversion Hr; subst.
  apply find_some in Em. destruct Em as [Hm Em].
  apply organizationUser_where_iff in Em.
  apply find_some in Ea. destruct Ea as [Ha Ea].
  apply organizationUserRole_where_iff in Ea.
  exists target, m, a. unfold active_membership, active_assignment.
  intuition.
Qed.

(** X6. [hasPermission] returns [true] only for an explicit organization id,
    a resolved user (backed by a user row that is active with status
    [ACTIVE]), an active membership of that user in that organization, and
    an active role assignment of that user in that organization whose role
    holds a grant with [allowed = true] that matches the permission. *)
Theorem hasPermission_sound (req : Request) (w : World) (permission : string)
    (organizationId : option string) :
  fst (hasPermission req permission organizationId w) = JS.Normal true ->
  exists target user row m a g,
    organizationId = Some target
    /\ JS.truthy target = true
    /\ fst (getServerUser req w) = JS.Normal (Some user)
    /\ In row (users (db w))
    /\ User.id row = JWTUser.userId user
    /\ User.isActive row = true
    /\ User.status row = UserStatus.ACTIVE
    /\ active_membership w (JWTUser.userId user) target m
    /\ active_assignment w (JWTUser.userId user) target a
    /\ In g (OrganizationRole.permissions (OrganizationUserRole.role a))
    /\ OrganizationRolePermission.allowed g = true
    /\ grant_matches g permission.
Proof.
  unfold hasPermission, bind.
  destruct (getServerUserWithOrganization req organizationId w)
    as [c w'] eqn:E.
  destruct c as [[context|]|e]; simpl; try discriminate.
  destruct (Context.role context) as [role|] eqn:Hrole; simpl;
    [|discriminate].
  intros H.
  assert (Hchecks : (if some_allowed role permission then true
                     else if some_allowed role (wildcardPermission permission)
                          then true else some_allowed role "*") = true).
  { destruct (some_allowed role permission); [reflexivity|].
    destruct (some_allowed role (wildcardPermission permission));
      [reflexivity|]. simpl in H. injection H as H. exact H. }
  apply role_checks_iff in Hchecks.
  destruct Hchecks as [g [Hin [Hallowed Hname]]].
  assert (E' : fst (getServerUserWithOrganization req organizationId w)
               = JS.Normal (Some context)) by (rewrite E; reflexivity).
  destruct (context_role_inversion _ _ _ _ _ E' Hrole)
    as [target [m [a [Ho [Htr [Hu [Hm [Ha [_ ->]]]]]]]]].
  destruct (resolved_userId _ _ _ Hu) as [_ [row [R1 [R2 [R3 R4]]]]].
  exists target, (Context.user context), row, m, a, g.
  unfold grant_matches, wildcardPermission. auto 12.
Qed.

(** X7. For a resolved user with an active membership in the organization
    passed and an active role assignment there that is the only one for the
    pair, when the store answers both queries, one grant with
    [allowed = true] that matches the permission is enough for
    [hasPermission] to return [true], whatever else the role holds. *)
Theorem hasPermission_complete (req : Request) (w : World)
    (permission target : string) (user : JWTUser.t)
    (m : OrganizationUser.t) (a : OrganizationUserRole.t)
    (g : OrganizationRolePermission.t) :
  fst (getServerUser req w) = JS.Normal (Some user) ->
  JS.truthy target = true ->
  outage w (OrganizationUserFindFirst (JWTUser.userId user) target) = None ->
  outage w (OrganizationUserRoleFindUnique target (JWTUser.userId user)) = None ->
  active_membership w (JWTUser.userId user) target m ->
  active_assignment w (JWTUser.userId user) target a ->
  (forall a', active_assignment w (JWTUser.userId user) target a' -> a' = a) ->
  In g (OrganizationRole.permissions (OrganizationUserRole.role a)) ->
  OrganizationRolePermission.allowed g = true ->
  grant_matches g permission ->
  hasPermission req permission (Some target) w = (JS.Normal true, w).
Proof.
  intros Hu Htr Hom Hor [Hm [M1 [M2 M3]]] [Ha [A1 [A2 A3]]] Huniq Hg Hallowed
         Hmatch.
  assert (Ht : JS.or (Some target) (JWTUser.organizationId user) = Some target)
    by (simpl; rewrite Htr; reflexivity).
  assert (Hrow : prisma.organizationUser_where (JWTUser.userId user) target m
                 = true) by (apply organizationUser_where_iff; auto).
  destruct (find_one_true _ _ _ Hm Hrow) as [m' Em].
  assert (Hrole : prisma.organizationUserRole_where
                    target (JWTUser.userId user) a = true)
    by (apply organizationUserRole_where_iff; auto).
  destruct (find_one_true _ _ _ Ha Hrole) as [a' Ea].
  assert (a' = a).
  { apply Huniq. apply find_some in Ea. destruct Ea as [Hin Hw].
    apply organizationUserRole_where_iff in Hw.
    unfold active_assignment. intuition. }
  subst a'.
  unfold hasPermission, bind.
  rewrite (targeted_run _ _ _ _ _ Hu Ht Htr). unfold lookups. unfold_m.
  rewrite Hom, Em, Hor, Ea. simpl.
  assert (Hchecks :
            (if some_allowed (OrganizationUserRole.role a) permission then true
             else if some_allowed (OrganizationUserRole.role a)
                                  (wildcardPermission permission)
                  then true
                  else some_allowed (OrganizationUserRole.role a) "*") = true).
  { apply role_checks_iff. exists g. auto. }
  destruct (some_allowed (OrganizationUserRole.role a) permission);
    [reflexivity|].
  destruct (some_allowed (OrganizationUserRole.role a)
                         (wildcardPermission permission)); [reflexivity|].
  rewrite Hchecks. reflexivity.
Qed.

(** ** Grants with [allowed = false] *)

Lemma some_allowed_without_denied (role : OrganizationRole.t) (name : string) :
  some_allowed (without_denied role) name = some_allowed role name.
Proof.
  unfold some_allowed, without_denied. simpl.
  induction (OrganizationRole.permissions role) as [|g l IH]; simpl;
    [reflexivity|].
  destruct (OrganizationRolePermission.allowed g) eqn:Ha; simpl.
  - rewrite Ha, IH. reflexivity.
  - rewrite andb_false_r. exact IH.
Qed.

Lemma find_assignment_without_denied (organizationId userId : string)
    (l : list OrganizationUserRole.t) :
  find (prisma.organizationUserRole_where organizationId userId)
       (map assignment_without_denied l)
  = option_map assignment_without_denied
      (find (prisma.organizationUserRole_where organizationId userId) l).
Proof.
  induction l as [|a l IH]; simpl; [reflexivity|].
  change (prisma.organizationUserRole_where organizationId userId
            (assignment_without_denied a))
    with (prisma.organizationUserRole_where organizationId userId a).
  destruct (prisma.organizationUserRole_where organizationId userId a);
    [reflexivity | exact IH].
Qed.

Lemma getServerUser_strip_denied (req : Request) (w : World) :
  getServerUser req (strip_denied w)
  = (fst (getServerUser req w), strip_denied (snd (getServerUser req w))).
Proof.
  destruct w as [d o c]. unfold getServerUser, strip_denied. unfold_m. simpl.
  repeat step; reflexivity.
Qed.

(** X8. Deleting every grant with [allowed = false] from the store changes
    the answer of no permission check: a denied grant never takes a
    permission away, not even one that a wildcard grant gives. *)
Theorem denied_grants_are_inert (req : Request) (w : World)
    (permission : string) (organizationId : option string) :
  fst (hasPermission req permission organizationId (strip_denied w))
  = fst (hasPermission req permission organizationId w).
Proof.
  unfold hasPermission, getServerUserWithOrganization, bind.
  rewrite getServerUser_strip_denied.
  destruct (getServerUser req w) as [c w1] eqn:E. simpl.
  destruct c as [[u|]|e]; [|reflexivity|reflexivity].
  destruct (JS.or organizationId (JWTUser.organizationId u)) as [target|];
    [|reflexivity].
  destruct (negb (JS.truthy target)); [reflexivity|].
  destruct w1 as [d o c]. unfold strip_denied. unfold_m. simpl.
  destruct (o (OrganizationUserFindFirst (JWTUser.userId u) target));
    simpl; [reflexivity|].
  destruct (find _ (organizationUsers d)) as [m|]; simpl; [|reflexivity].
  destruct (o (OrganizationUserRoleFindUnique target (JWTUser.userId u)));
    simpl; [reflexivity|].
  rewrite find_assignment_without_denied.
  destruct (find _ (organizationUserRoles d)) as [a|]; simpl; [|reflexivity].
  rewrite !some_allowed_without_denied.
  destruct (some_allowed (OrganizationUserRole.role a) permission);
    [reflexivity|].
  destruct (some_allowed (OrganizationUserRole.role a)
                         (wildcardPermission permission)); reflexivity.
Qed.

(** ** Membership checks *)

(** X9. When the store answers, [validateOrganizationAccess] returns [true]
    exactly when the membership table holds a row of the user in the
    organization with [isActive = true]; it reads no other table and logs
    nothing. *)
Theorem validateOrganizationAccess_iff (w : World)
    (userId organizationId : string) :
  outage w (OrganizationUserFindFirst userId organizationId) = None ->
  exists b,
    validateOrganizationAccess userId organizationId w = (JS.Normal b, w)
    /\ (b = true <-> exists r, active_membership w userId organizationId r).
Proof.
  intros Ho. unfold validateOrganizationAccess. unfold_m. rewrite Ho.
  destruct (find (prisma.organizationUser_where userId organizationId)
                 (organizationUsers (db w))) as [r|] eqn:E; simpl.
  - exists true. split; [reflexivity|]. split; [|reflexivity]. intros _.
    apply find_some in E. destruct E as [Hin Hw].
    apply organizationUser_where_iff in Hw. exists r.
    unfold active_membership. intuition.
  - exists false. split; [reflexivity|]. split; [discriminate|].
    intros [r [Hin [H1 [H2 H3]]]].
    assert (Hw : prisma.organizationUser_where userId organizationId r = true)
      by (apply organizationUser_where_iff; auto).
    rewrite (find_none _ _ E r Hin) in Hw. discriminate.
Qed.

(** X10. For a resolved user and a store that answers, the access check and
    the context resolver agree on an organization passed explicitly: either
    [validateOrganizationAccess] is [true] and
    [getServerUserWithOrganization] returns the organization of an active
    membership, or it is [false] and the resolver returns [null]. *)
Theorem access_agrees_with_context (req : Request) (w : World)
    (user : JWTUser.t) (target : string) :
  fst (getServerUser req w) = JS.Normal (Some user) ->
  JS.truthy target = true ->
  outage w (OrganizationUserFindFirst (JWTUser.userId user) target) = None ->
  outage w (OrganizationUserRoleFindUnique target (JWTUser.userId user)) = None ->
  (fst (validateOrganizationAccess (JWTUser.userId user) target w)
   = JS.Normal true
   /\ exists context m,
        fst (getServerUserWithOrganization req (Some target) w)
        = JS.Normal (Some context)
        /\ active_membership w (JWTUser.userId user) target m
        /\ Context.organization context
           = Some (OrganizationUser.organization m))
  \/ (fst (validateOrganizationAccess (JWTUser.userId user) target w)
      = JS.Normal false
      /\ fst (getServerUserWithOrganization req (Some target) w)
         = JS.Normal None).
Proof.
  intros Hu Htr Hom Hor.
  assert (Ht : JS.or (Some target) (JWTUser.organizationId user) = Some target)
    by (simpl; rewrite Htr; reflexivity).
  rewrite (targeted_run _ _ _ _ _ Hu Ht Htr).
  unfold validateOrganizationAccess, lookups. unfold_m. rewrite Hom.
  destruct (find (prisma.organizationUser_where (JWTUser.userId user) target)
                 (organizationUsers (db w))) as [m|] eqn:E; simpl.
  - left. split; [reflexivity|]. rewrite Hor. simpl.
    apply find_some in E. destruct E as [Hin Hw].
    apply organizationUser_where_iff in Hw.
    eexists. exists m. split; [reflexivity|].
    unfold active_membership. simpl. intuition.
  - right. split; reflexivity.
Qed.

(** ** Listing organizations *)

Lemma insert_asc_Permutation {A : Type} (key : A -> nat) (x : A) (l : list A) :
  Permutation (insert_asc key x l) (x :: l).
Proof.
  induction l as [|y l IH]; simpl; [reflexivity|].
  destruct (Nat.leb (key x) (key y)); [reflexivity|].
  rewrite IH. apply perm_swap.
Qed.

Lemma orderBy_asc_Permutation {A : Type} (key : A -> nat) (l : list A) :
  Permutation (orderBy_asc key l) l.
Proof.
  induction l as [|x l IH]; simpl; [reflexivity|].
  rewrite insert_asc_Permutation. apply perm_skip. exact IH.
Qed.

Lemma insert_asc_Sorted {A : Type} (key : A -> nat) (x : A) (l : list A) :
  Sorted (fun a b => key a <= key b) l ->
  Sorted (fun a b => key a <= key b) (insert_asc key x l).
Proof.
  induction l as [|y l IH]; simpl; intros Hs.
  - constructor; constructor.
  - destruct (Nat.leb_spec (key x) (key y)) as [Hle|Hgt].
    + constructor; [exact Hs|]. constructor. exact Hle.
    + inversion Hs as [|? ? Hl Hhd]; subst.
      constructor; [apply IH; exact Hl|].
      destruct l as [|z l]; simpl.
      * constructor. lia.
      * destruct (Nat.leb (key x) (key z)); constructor;
          [lia | inversion Hhd; assumption].
Qed.

Lemma orderBy_asc_Sorted {A : Type} (key : A -> nat) (l : list A) :
  Sorted (fun a b => key a <= key b) (orderBy_asc key l).
Proof.
  induction l as [|x l IH]; simpl; [constructor|].
  apply insert_asc_Sorted. exact IH.
Qed.

Lemma Sorted_map {A B : Type} (f : A -> B) (R : B -> B -> Prop) (l : list A) :
  Sorted (fun a b => R (f a) (f b)) l -> Sorted R (map f l).
Proof.
  induction 1 as [|x l Hs IH Hhd]; simpl; constructor; [exact IH|].
  destruct Hhd; simpl; constructor; assumption.
Qed.

Lemma organizationUser_listing_where_iff (userId : string)
    (r : OrganizationUser.t) :
  prisma_listing.organizationUser_where userId r = true <->
  OrganizationUser.userId r = userId /\ OrganizationUser.isActive r = true.
Proof.
  unfold prisma_listing.organizationUser_where.
  rewrite andb_true_iff, String.eqb_eq, Bool.eqb_true_iff. tauto.
Qed.

(** X11. When the store answers, [getUserOrganizations] returns the
    memberships of the user that have [isActive = true], each row of the table
    once and no other, by ascending [joinedAt], and logs nothing. *)
Theorem getUserOrganizations_lists (l : Listing) (w : World) (userId : string) :
  listing_outage l (OrganizationUserFindMany userId) = None ->
  exists rows,
    getUserOrganizations l userId w = (JS.Normal rows, w)
    /\ Permutation rows
         (map (prisma_listing.include_organization l)
              (filter (fun r => (OrganizationUser.userId r =? userId)
                                && Bool.eqb (OrganizationUser.isActive r) true)
                      (organizationUsers (db w))))
    /\ (forall x, In x rows ->
          UserOrganization.userId x = userId
          /\ UserOrganization.isActive x = true)
    /\ (forall r, In r (organizationUsers (db w)) ->
          OrganizationUser.userId r = userId ->
          OrganizationUser.isActive r = true ->
          In (prisma_listing.include_organization l r) rows)
    /\ Sorted (fun x y => UserOrganization.joinedAt x
                          <= UserOrganization.joinedAt y) rows.
Proof.
  intros Ho. unfold getUserOrganizations, tryCatch, bind, ret,
    prisma_listing.organizationUser_findMany, read_listing.
  rewrite Ho. eexists. split; [reflexivity|].
  fold (prisma_listing.organizationUser_where userId).
  set (matching := filter (prisma_listing.organizationUser_where userId)
                          (organizationUsers (db w))).
  assert (Hperm : Permutation
                    (map (prisma_listing.include_organization l)
                         (orderBy_asc (joinedAt l) matching))
                    (map (prisma_listing.include_organization l) matching))
    by (apply Permutation_map, orderBy_asc_Permutation).
  split; [exact Hperm|]. split; [|split].
  - intros x Hx. apply (Permutation_in _ Hperm) in Hx.
    apply in_map_iff in Hx. destruct Hx as [r [<- Hr]].
    apply filter_In in Hr. destruct Hr as [_ Hr].
    apply organizationUser_listing_where_iff in Hr. exact Hr.
  - intros r Hin H1 H2. apply (Permutation_in _ (Permutation_sym Hperm)).
    apply in_map. apply filter_In. split; [exact Hin|].
    apply organizationUser_listing_where_iff. auto.
  - apply Sorted_map. simpl. apply orderBy_asc_Sorted.
Qed.

(** X12. When the store answers both, the access check and the listing
    agree: [validateOrganizationAccess(userId, organizationId)] is [true]
    exactly when [getUserOrganizations(userId)] lists a membership in that
    organization. *)
Theorem access_agrees_with_listing (l : Listing) (w : World)
    (userId organizationId : string) :
  outage w (OrganizationUserFindFirst userId organizationId) = None ->
  listing_outage l (OrganizationUserFindMany userId) = None ->
  fst (validateOrganizationAccess userId organizationId w) = JS.Normal true
  <-> exists rows x,
        fst (getUserOrganizations l userId w) = JS.Normal rows
        /\ In x rows
        /\ UserOrganization.organizationId x = organizationId.
Proof.
  intros Ho Hl.
  unfold validateOrganizationAccess, getUserOrganizations, tryCatch, bind, ret,
    prisma.organizationUser_findFirst, read,
    prisma_listing.organizationUser_findMany, read_listing.
  rewrite Ho, Hl. simpl.
  set (sorted := orderBy_asc (joinedAt l)
                   (filter (prisma_listing.organizationUser_where userId)
                           (organizationUsers (db w)))).
  assert (Hsorted : forall r, In r sorted <->
            In r (organizationUsers (db w))
            /\ OrganizationUser.userId r = userId
            /\ OrganizationUser.isActive r = true).
  { intros r. unfold sorted. split.
    - intros H. apply (Permutation_in _ (orderBy_asc_Permutation _ _)) in H.
      apply filter_In in H. destruct H as [Hin H].
      apply organizationUser_listing_where_iff in H. tauto.
    - intros [Hin H].
      apply (Permutation_in _ (Permutation_sym (orderBy_asc_Permutation _ _))).
      apply filter_In. split; [exact Hin|].
      apply organizationUser_listing_where_iff. exact H. }
  destruct (find (prisma.organizationUser_where userId organizationId)
                 (organizationUsers (db w))) as [r|] eqn:E; simpl.
  - split; [intros _ | reflexivity].
    apply find_some in E. destruct E as [Hin Hw].
    apply organizationUser_where_iff in Hw. destruct Hw as [H1 [H2 H3]].
    eexists. exists (prisma_listing.include_organization l r).
    split; [reflexivity|]. split; [|exact H2].
    apply in_map. apply Hsorted. auto.
  - split; [discriminate|].
    intros [rows [x [Hrows [Hx Horg]]]]. injection Hrows as <-.
    apply in_map_iff in Hx. destruct Hx as [r [<- Hr]].
    apply Hsorted in Hr. destruct Hr as [Hin [H1 H2]].
    assert (Hw : prisma.organizationUser_where userId organizationId r = true)
      by (apply organizationUser_where_iff; auto).
    rewrite (find_none _ _ E r Hin) in Hw. discriminate.
Qed.

(** X13. [getServerOrganization] and [getUserOrganizations] never raise.
    When the store raises, the error goes to the console and the result is
    [null], respectively the empty list: the results for an organization
    that does not exist and for a user without memberships. *)
Theorem listing_failure_is_caught (l : Listing) (w : World) :
  (forall organizationId,
     exists r w', getServerOrganization l organizationId w = (JS.Normal r, w'))
  /\ (forall userId,
        exists rows w', getUserOrganizations l userId w = (JS.Normal rows, w'))
  /\ (forall organizationId e,
        listing_outage l (OrganizationFindUnique organizationId) = Some e ->
        getServerOrganization l organizationId w
        = (JS.Normal None, logged w "Failed to get organization:" e))
  /\ (forall userId e,
        listing_outage l (OrganizationUserFindMany userId) = Some e ->
        getUserOrganizations l userId w
        = (JS.Normal [], logged w "Failed to get user organizations:" e)).
Proof.
  unfold getServerOrganization, getUserOrganizations, tryCatch, bind, ret,
    console_error, prisma_listing.organization_findUnique,
    prisma_listing.organizationUser_findMany, read_listing.
  split; [|split; [|split]].
  - intros o. destruct (listing_outage l (OrganizationFindUnique o)); eauto.
  - intros u. destruct (listing_outage l (OrganizationUserFindMany u)); eauto.
  - intros o e H. rewrite H. reflexivity.
  - intros u e H. rewrite H. reflexivity.
Qed.

(** X14. When the store answers, [getServerOrganization] returns an
    organization of the table whose id is the id asked for, and [null]
    exactly when the table has no organization with that id. *)
Theorem getServerOrganization_found (l : Listing) (w : World)
    (organizationId : string) :
  listing_outage l (OrganizationFindUnique organizationId) = None ->
  exists r,
    getServerOrganization l organizationId w = (JS.Normal r, w)
    /\ (forall o, r = Some o ->
          In o (organizations l) /\ OrganizationDetails.id o = organizationId)
    /\ (r = None <->
        forall o, In o (organizations l) ->
                  OrganizationDetails.id o <> organizationId).
Proof.
  intros Ho. unfold getServerOrganization, tryCatch, bind, ret,
    prisma_listing.organization_findUnique, read_listing.
  rewrite Ho. eexists. split; [reflexivity|].
  destruct (find (fun o => OrganizationDetails.id o =? organizationId)
                 (organizations l)) as [o|] eqn:E.
  - apply find_some in E. destruct E as [Hin Hid].
    apply String.eqb_eq in Hid. split.
    + intros o' H. inversion H; subst. auto.
    + split; [discriminate|]. intros H. exfalso. exact (H o Hin Hid).
  - split; [discriminate|]. split; [|reflexivity].
    intros _ o Hin. apply String.eqb_neq. exact (find_none _ _ E o Hin).
Qed.

(** ** Users from headers *)

(** X15. [getUserFromHeaders] returns a user exactly when both the
    [x-user-id] and the [x-user-email] header are present and not empty, and
    then it returns their values; a missing or empty header gives [null]. *)
Theorem getUserFromHeaders_iff (headers : Headers.t) (u : HeaderUser.t) :
  getUserFromHeaders headers = Some u <->
  Headers.get headers "x-user-id" = Some (HeaderUser.userId u)
  /\ Headers.get headers "x-user-email" = Some (HeaderUser.email u)
  /\ JS.truthy (HeaderUser.userId u) = true
  /\ JS.truthy (HeaderUser.email u) = true.
Proof.
  unfold getUserFromHeaders, JS.falsy.
  destruct (Headers.get headers "x-user-id") as [userId|];
    destruct (Headers.get headers "x-user-email") as [email|]; simpl.
  - destruct (JS.truthy userId) eqn:H1; destruct (JS.truthy email) eqn:H2;
      simpl; split.
    + intros H. inversion H; subst. simpl. auto.
    + intros [Hi [He _]]. inversion Hi. inversion He. destruct u. reflexivity.
    + discriminate.
    + intros [Hi [He [_ Ht]]]. inversion He; subst. congruence.
    + discriminate.
    + intros [Hi [He [Ht _]]]. inversion Hi; subst. congruence.
    + discriminate.
    + intros [Hi [He [Ht _]]]. inversion Hi; subst. congruence.
  - rewrite orb_true_r. split; [discriminate | intros [_ [H _]]; discriminate].
  - split; [discriminate | intros [H _]; discriminate].
  - split; [discriminate | intros [H _]; discriminate].
Qed.

(** ** Failures deny *)

(** X16. Permission checks fail closed.  When a collaborator of
    [getServerUser] raises, or the store raises on the membership query or on
    the role query of a resolved user, [hasPermission] returns [false] and
    [requirePermission] raises [Error("Permission denied: <name>")]. *)
Theorem hasPermission_fails_closed (req : Request) (w : World)
    (permission target : string) (e : JS.Error) :
  dependency_failure req w e
  \/ (exists user,
        fst (getServerUser req w) = JS.Normal (Some user)
        /\ (outage w (OrganizationUserFindFirst (JWTUser.userId user) target)
              = Some e
            \/ outage w (OrganizationUserRoleFindUnique
                           target (JWTUser.userId user)) = Some e)) ->
  fst (hasPermission req permission (Some target) w) = JS.Normal false
  /\ fst (requirePermission req permission (Some target) w)
     = JS.Throw (JS.mkError ("Permission denied: " ++ permission)).
Proof.
  intros H.
  assert (Hfalse : fst (hasPermission req permission (Some target) w)
                   = JS.Normal false).
  { destruct H as [Hdep | [user [Hu Hout]]].
    - unfold hasPermission, getServerUserWithOrganization, bind.
      rewrite (getServerUser_catches req w e Hdep). reflexivity.
    - destruct (resolved_run _ _ _ Hu) as [E Horg].
      unfold hasPermission, getServerUserWithOrganization, bind.
      rewrite E, Horg. unfold JS.or.
      destruct (JS.truthy target) eqn:Htr; [|reflexivity].
      rewrite Htr. unfold_m. simpl.
      destruct Hout as [Ho | Ho].
      + rewrite Ho. reflexivity.
      + destruct (outage w (OrganizationUserFindFirst _ _)); simpl;
          [reflexivity|].
        destruct (find _ (organizationUsers (db w))); simpl; [|reflexivity].
        rewrite Ho. reflexivity. }
  split; [exact Hfalse|].
  unfold requirePermission, bind.
  destruct (hasPermission req permission (Some target) w) as [c w'].
  simpl in Hfalse. subst c. reflexivity.
Qed.

(** ** The further theorems at work on the scenario store *)

Section FurtherWitnesses.

Import Scenario Fixtures.

Lemma claims_beyond_userId_ignored_witness :
  JWTPayload.permissions inflated_claims = Some ["*"]
  /\ getServerUser alice_request healthy = getServerUser inflated_request healthy
  /\ (forall organizationId,
        getServerUserWithOrganization alice_request organizationId healthy
        = getServerUserWithOrganization inflated_request organizationId healthy)
  /\ (forall permission organizationId,
        hasPermission alice_request permission organizationId healthy
        = hasPermission inflated_request permission organizationId healthy).
Proof.
  split; [reflexivity|].
  apply (claims_beyond_userId_ignored alice_request inflated_request healthy
           [("theme", "dark"); ("auth-token", "token-alice")]
           [("auth-token", "token-inflated"); ("lang", "th")]
           "token-alice" "token-inflated"
           (claims "u1" (Some "orgC")) inflated_claims);
    reflexivity.
Defined.

Lemma hasPermission_without_organization_witness :
  fst (hasPermission alice_request "products.read" None healthy)
  = JS.Normal false
  /\ fst (requirePermission alice_request "products.read" None healthy)
     = JS.Throw (JS.mkError ("Permission denied: " ++ "products.read")).
Proof.
  apply (hasPermission_without_organization alice_request healthy
           "products.read" None).
  reflexivity.
Defined.

Lemma hasPermission_sound_witness :
  exists target user row m a g,
    Some "orgB" = Some target
    /\ JS.truthy target = true
    /\ fst (getServerUser alice_request healthy) = JS.Normal (Some user)
    /\ In row (users (db healthy))
    /\ User.id row = JWTUser.userId user
    /\ User.isActive row = true
    /\ User.status row = UserStatus.ACTIVE
    /\ active_membership healthy (JWTUser.userId user) target m
    /\ active_assignment healthy (JWTUser.userId user) target a
    /\ In g (OrganizationRole.permissions (OrganizationUserRole.role a))
    /\ OrganizationRolePermission.allowed g = true
    /\ grant_matches g "products.create".
Proof.
  apply (hasPermission_sound alice_request healthy "products.create"
           (Some "orgB")).
  reflexivity.
Defined.

Lemma hasPermission_complete_witness :
  hasPermission alice_request "products.create" (Some "orgB") healthy
  = (JS.Normal true, healthy).
Proof.
  apply (hasPermission_complete alice_request healthy "products.create" "orgB"
           alice_user (membership "m2" "orgB" true) (assignment admin)
           (grant "r-admin" "*" true));
    try reflexivity.
  - unfold active_membership. simpl. auto 8.
  - unfold active_assignment. simpl. auto 8.
  - intros a' [Hin [_ [Horg _]]]. simpl in Hin.
    destruct Hin as [<- | [<- | [<- | []]]];
      try discriminate Horg; reflexivity.
  - simpl. auto.
  - right. right. reflexivity.
Defined.

Lemma validateOrganizationAccess_iff_witness :
  exists b,
    validateOrganizationAccess "u1" "orgC" healthy = (JS.Normal b, healthy)
    /\ (b = true <-> exists r, active_membership healthy "u1" "orgC" r).
Proof.
  apply (validateOrganizationAccess_iff healthy "u1" "orgC"). reflexivity.
Defined.

Lemma access_agrees_with_context_witness :
  (fst (validateOrganizationAccess "u1" "orgA" healthy) = JS.Normal true
   /\ exists context m,
        fst (getServerUserWithOrganization alice_request (Some "orgA") healthy)
        = JS.Normal (Some context)
        /\ active_membership healthy "u1" "orgA" m
        /\ Context.organization context
           = Some (OrganizationUser.organization m))
  \/ (fst (validateOrganizationAccess "u1" "orgA" healthy) = JS.Normal false
      /\ fst (getServerUserWithOrganization alice_request (Some "orgA") healthy)
         = JS.Normal None).
Proof.
  apply (access_agrees_with_context alice_request healthy alice_user "orgA");
    reflexivity.
Defined.

Lemma getUserOrganizations_lists_witness :
  exists rows,
    getUserOrganizations listing "u1" healthy = (JS.Normal rows, healthy)
    /\ map UserOrganization.organizationId rows = ["orgB"; "orgD"; "orgA"]
    /\ Sorted (fun x y => UserOrganization.joinedAt x
                          <= UserOrganization.joinedAt y) rows.
Proof.
  destruct (getUserOrganizations_lists listing healthy "u1" eq_refl)
    as [rows [Hrun [_ [_ [_ Hsorted]]]]].
  exists rows. split; [exact Hrun|]. split; [|exact Hsorted].
  assert (H : fst (getUserOrganizations listing "u1" healthy) = JS.Normal rows)
    by (rewrite Hrun; reflexivity).
  injection H as <-. reflexivity.
Defined.

Lemma access_agrees_with_listing_witness :
  fst (validateOrganizationAccess "u1" "orgA" healthy) = JS.Normal true
  <-> exists rows x,
        fst (getUserOrganizations listing "u1" healthy) = JS.Normal rows
        /\ In x rows
        /\ UserOrganization.organizationId x = "orgA".
Proof.
  apply (access_agrees_with_listing listing healthy "u1" "orgA");
    reflexivity.
Defined.

Lemma listing_failure_is_caught_witness :
  getServerOrganization listing_down "orgA" healthy
  = (JS.Normal None, logged healthy "Failed to get organization:" ECONNREFUSED)
  /\ getUserOrganizations listing_down "u1" healthy
     = (JS.Normal [],
        logged healthy "Failed to get user organizations:" ECONNREFUSED).
Proof.
  destruct (listing_failure_is_caught listing_down healthy)
    as [_ [_ [Horg Hlist]]].
  split; [apply Horg | apply Hlist]; reflexivity.
Defined.

Lemma getServerOrganization_found_witness :
  exists r,
    getServerOrganization listing "orgB" healthy = (JS.Normal r, healthy)
    /\ (forall o, r = Some o ->
          In o (organizations listing) /\ OrganizationDetails.id o = "orgB")
    /\ (r = None <->
        forall o, In o (organizations listing) ->
                  OrganizationDetails.id o <> "orgB").
Proof.
  apply (getServerOrganization_found listing healthy "orgB"). reflexivity.
Defined.

Lemma hasPermission_fails_closed_witness :
  fst (hasPermission alice_request "products.read" (Some "orgA")
         memberships_down) = JS.Normal false
  /\ fst (requirePermission alice_request "products.read" (Some "orgA")
            memberships_down)
     = JS.Throw (JS.mkError ("Permission denied: " ++ "products.read")).
Proof.
  apply (hasPermission_fails_closed alice_request memberships_down
           "products.read" "orgA" ECONNREFUSED).
  right. exists alice_user. split; [reflexivity|]. left. reflexivity.
Defined.

Lemma getUserFromHeaders_iff_witness :
  getUserFromHeaders headers
  = Some {| HeaderUser.userId := "u1";
            HeaderUser.email := "alice@example.com" |}.
Proof.
  apply (proj2 (getUserFromHeaders_iff headers
                  {| HeaderUser.userId := "u1";
                     HeaderUser.email := "alice@example.com" |})).
  repeat split; reflexivity.
Defined.

Lemma getServerUser_resolved_iff_witness :
  fst (getServerUser alice_request healthy) = JS.Normal (Some alice_user).
Proof.
  apply (proj2 (getServerUser_resolved_iff alice_request healthy alice_user)).
  exists [("theme", "dark"); ("auth-token", "token-alice")], "token-alice",
    (claims "u1" (Some "orgC")), alice.
  repeat split; reflexivity.
Defined.

End FurtherWitnesses.
